(** * spark-rapids-tools: the dataset validation script

  A shallow embedding of
  [data_validation/.../validation_scripts/dataset_validation.py].

  The script receives its arguments from argparse, builds SQL text with
  f-strings and hands it to a Spark session.  The embedding keeps its
  layers apart:

  - [Py]: the Python values and string operations the script uses;
  - [Engine]: the Spark session as explicit state (catalog, files,
    standard output, the calls issued so far) with an error monad;
  - [Validation]: the functions of the script, one definition each,
    parametrised by the interpreter of SQL text;
  - [MiniSQL]: a small interpreter for the statements the script
    generates, used to run the script on concrete data;
  - [Spec], [Inputs]: the vocabulary of the specification, and the
    concrete sessions and command lines;
  - [Properties]: what the script does, for every SQL interpreter where
    the statement allows it, and on [MiniSQL] otherwise. *)

From Stdlib Require Import ZArith Ascii.
From stdpp Require Import base option list strings gmap.

(** ** Python values and string operations *)

Module Py.

(** A [str] that may be [None]: argparse leaves an omitted flag at
    [None], while the command line sentinel is the text ['None']. *)
Abbreviation ostr := (option string).

(** [f"{x}"]: interpolation of a [str] or of [None]. *)
Definition fstr (x : ostr) : string := from_option id "None" x.

(** [x == s] and [x != s] for a literal [s]. *)
Definition eqb (x : ostr) (s : string) : bool := bool_decide (x = Some s).
Definition neqb (x : ostr) (s : string) : bool := negb (eqb x s).

(** [x is not None]. *)
Definition is_not_None (x : ostr) : bool :=
  match x with Some _ => true | None => false end.

(** [x in [s1, ..., sn]] for literals [s1 ... sn]. *)
Definition in_list (x : ostr) (l : list string) : bool := existsb (eqb x) l.

(** [sep.join(xs)]. *)
Fixpoint join (sep : string) (xs : list string) : string :=
  match xs with
  | [] => ""
  | [x] => x
  | x :: rest => x +:+ sep +:+ join sep rest
  end.

(** [s.split(c)] for a one character separator: never the empty list. *)
Fixpoint split (c : ascii) (s : string) : list string :=
  match s with
  | "" => [""]
  | String a s' =>
      if decide (a = c) then "" :: split c s'
      else match split c s' with
           | w :: ws => String a w :: ws
           | [] => [String a ""]
           end
  end.

(** Text is held as its UTF-8 bytes. [str.isspace] on the characters of
    one byte. *)
Definition isspace (a : ascii) : bool :=
  match a with
  | "009" | "010" | "011" | "012" | "013"
  | "028" | "029" | "030" | "031" | " " => true
  | _ => false
  end%char.

(** The third byte of the white space characters U+2000 to U+200A,
    U+2028, U+2029 and U+202F, whose first bytes are E2 80. *)
Definition general_space (c : ascii) : bool :=
  match c with
  | "128" | "129" | "130" | "131" | "132" | "133" | "134" | "135"
  | "136" | "137" | "138" | "168" | "169" | "175" => true
  | _ => false
  end%char.

(** The text after its first character, when that character is white
    space for [str.isspace]: the one-byte characters above, U+0085,
    U+00A0, U+1680, U+2000 to U+200A, U+2028, U+2029, U+202F, U+205F and
    U+3000. *)
Definition drop_space (s : string) : option string :=
  match s with
  | "" => None
  | String a s1 =>
      if isspace a then Some s1
      else
        match a, s1 with
        | "194"%char, String b s2 =>
            if bool_decide (b = "133"%char ∨ b = "160"%char)
            then Some s2 else None
        | "225"%char, String "154" (String "128" s3) => Some s3
        | "226"%char, String "128" (String c s3) =>
            if general_space c then Some s3 else None
        | "226"%char, String "129" (String "159" s3) => Some s3
        | "227"%char, String "128" (String "128" s3) => Some s3
        | _, _ => None
        end
  end.

Fixpoint lstrip_go (fuel : nat) (s : string) : string :=
  match fuel with
  | O => s
  | S fuel' =>
      match drop_space s with
      | Some rest => lstrip_go fuel' rest
      | None => s
      end
  end.

(** [s.lstrip()]: each step removes at least one byte. *)
Definition lstrip (s : string) : string := lstrip_go (String.length s) s.

(** [s.rstrip()]: the text is cut where only white space follows. A
    position inside a character starts with a continuation byte, which
    begins no white space character. *)
Fixpoint rstrip (s : string) : string :=
  match s with
  | "" => ""
  | String a s' =>
      if bool_decide (lstrip s = "") then "" else String a (rstrip s')
  end.

(** [s.strip()]. *)
Definition strip (s : string) : string := rstrip (lstrip s).

(** The exceptions that can leave the script. *)
Inductive exn :=
| AttributeError (msg : string)
| NameError (name : string)
| ParseException (sql : string)
| AnalysisException (msg : string)
| Py4JError (msg : string).

Global Instance exn_eq_dec : EqDecision exn.
Proof. solve_decision. Defined.

End Py.

(** ** The data the engine holds *)

Module Data.

Inductive dtype := TInt | TString | TDate.

Global Instance dtype_eq_dec : EqDecision dtype.
Proof. solve_decision. Defined.

(** [dataType.simpleString()]. *)
Definition simpleString (t : dtype) : string :=
  match t with TInt => "int" | TString => "string" | TDate => "date" end.

Inductive value := VInt (z : Z) | VStr (s : string) | VDate (days : Z).

Global Instance value_eq_dec : EqDecision value.
Proof. solve_decision. Defined.

(** A relation: named, typed columns and rows of values (a bag). *)
Record relation := Relation {
  schema : list (string * dtype);
  rows : list (list value)
}.

Global Instance relation_eq_dec : EqDecision relation.
Proof. solve_decision. Defined.

(** Position of a column in a schema. *)
Fixpoint col_index (c : string) (sch : list (string * dtype)) : option nat :=
  match sch with
  | [] => None
  | (n, _) :: rest => if decide (n = c) then Some 0 else S <$> col_index c rest
  end.

(** Projection on named columns; [None] when a name does not resolve. *)
Definition project (cols : list string) (r : relation) : option relation :=
  idx ← mapM (λ c, col_index c (schema r)) cols;
  sch ← mapM (λ k, schema r !! k) idx;
  rws ← mapM (λ row : list value, mapM (λ k, row !! k) idx) (rows r);
  Some (Relation sch rws).

End Data.

(** ** The Spark session as explicit state *)

Module Engine.
Import Py Data.

(** What the script prints: text, the [repr] of a DataFrame
    ([print(result)]) or the table written by [show()]. *)
Inductive output :=
| OutStr (s : string)
| OutDataFrame (r : relation)
| OutShow (r : relation).

(** The calls that reach the engine, in the order they are issued. *)
Inductive event :=
| EvLoad (format path : ostr)
| EvView (name : string)
| EvSql (text : string).

Global Instance output_eq_dec : EqDecision output.
Proof. solve_decision. Defined.
Global Instance event_eq_dec : EqDecision event.
Proof. solve_decision. Defined.

Record Spark := MkSpark {
  catalog : gmap string relation;  (* tables and temporary views by name *)
  files : gmap string relation;    (* file-backed datasets by path *)
  stdout : list output;
  trace : list event
}.

Inductive result (A : Type) :=
| Ok (a : A)
| Raise (e : exn).
Global Arguments Ok {A} a.
Global Arguments Raise {A} e.

(** A computation of the script: it reads and updates the session and
    returns a value or raises. *)
Definition M (A : Type) : Type := Spark → result A * Spark.

Global Instance M_ret : MRet M := λ A a st, (Ok a, st).
Global Instance M_bind : MBind M := λ A B f m st,
  match m st with
  | (Ok a, st') => f a st'
  | (Raise e, st') => (Raise e, st')
  end.

Definition raise {A} (e : exn) : M A := λ st, (Raise e, st).

Definition emit (o : output) : M unit := λ st,
  (Ok (), MkSpark (catalog st) (files st) (stdout st ++ [o]) (trace st)).

Definition record (ev : event) : M unit := λ st,
  (Ok (), MkSpark (catalog st) (files st) (stdout st) (trace st ++ [ev])).

(** [print(s)] for a [str]. *)
Definition print (s : string) : M unit := emit (OutStr s).

(** Names are compared without regard to case. *)
Definition lower_char (a : ascii) : ascii :=
  let n := nat_of_ascii a in
  if bool_decide (65 ≤ n ≤ 90) then ascii_of_nat (n + 32) else a.

Fixpoint lower (s : string) : string :=
  match s with
  | "" => ""
  | String a s' => String (lower_char a) (lower s')
  end.

Definition letter (a : ascii) : bool :=
  let n := nat_of_ascii (lower_char a) in
  bool_decide (97 ≤ n ≤ 122) || bool_decide (a = "_"%char).

Definition digit (a : ascii) : bool :=
  let n := nat_of_ascii a in bool_decide (48 ≤ n ≤ 57).

Fixpoint word_chars (s : string) : bool :=
  match s with
  | "" => true
  | String a s' => (letter a || digit a) && word_chars s'
  end.

(** An unquoted identifier: a letter or underscore, then letters, digits
    and underscores. Quoted identifiers are not modelled. *)
Definition simple_identifier (s : string) : bool :=
  match s with
  | "" => false
  | String a s' => letter a && word_chars s'
  end.

(** A table name the parser of the engine accepts: an identifier,
    possibly qualified by a database. *)
Definition table_identifier (s : string) : bool :=
  match split "." s with
  | [t] => simple_identifier t
  | [db; t] => simple_identifier db && simple_identifier t
  | _ => false
  end.

(** Some entry of the catalog has this name, up to case. *)
Definition resolves (cat : gmap string relation) (n : string) : bool :=
  existsb (λ k, bool_decide (lower k = lower n)) (map_to_list cat).*1.

Global Arguments simple_identifier : simpl never.
Global Arguments table_identifier : simpl never.
Global Arguments resolves : simpl never.

(** [spark._jsparkSession.catalog().tableExists(name)]: a name the
    catalog resolves exists; another name is parsed, and one that is no
    table identifier (a path, for instance) is refused with
    [ParseException]. A null name is refused on the JVM side. *)
Definition tableExists (name : ostr) : M bool := λ st,
  match name with
  | Some n =>
      if resolves (catalog st) n then (Ok true, st)
      else if table_identifier n then (Ok false, st)
      else (Raise (ParseException n), st)
  | None => (Raise (Py4JError "tableExists"), st)
  end.

(** The dataset stored under a path, if any. *)
Definition open_path (path : ostr) : M relation := λ st,
  match path ≫= λ p, files st !! p with
  | Some r => (Ok r, st)
  | None => (Raise (AnalysisException "Path does not exist"), st)
  end.

(** [spark.read.format(format).load(path)]. *)
Definition read_load (format path : ostr) : M relation :=
  record (EvLoad format path);; open_path path.

(** The view is registered under a name that is an identifier; any other
    name (the empty one, a qualified one) is refused with
    [AnalysisException] and nothing is bound. *)
Definition bind_view (name : string) (df : relation) : M unit := λ st,
  if simple_identifier name
  then (Ok (), MkSpark (<[name := df]> (catalog st)) (files st)
                       (stdout st) (trace st))
  else (Raise (AnalysisException "Invalid view name"), st).

(** [df.createOrReplaceTempView(name)]. *)
Definition createOrReplaceTempView (df : relation) (name : string) : M unit :=
  record (EvView name);; bind_view name df.

(** [spark.sql(text)]: the statement is recorded, then interpreted over
    the catalog by the engine's SQL interpreter. *)
Section Sql.
Variable sql_exec : gmap string relation → string → result relation.

Definition interpret (text : string) : M relation := λ st,
  (sql_exec (catalog st) text, st).

Definition spark_sql (text : string) : M relation :=
  record (EvSql text);; interpret text.
End Sql.

(** The session's answers and effects, projected. *)
Definition value_of {A} (x : result A * Spark) : result A := x.1.
Definition printed {A} (x : result A * Spark) : list output := stdout x.2.
Definition issued {A} (x : result A * Spark) : list event := trace x.2.

(** The SQL statements among the calls issued. *)
Definition sql_of (ev : event) : option string :=
  match ev with EvSql q => Some q | _ => None end.
Definition queries (evs : list event) : list string := omap sql_of evs.

End Engine.

(** ** The script *)

Module Validation.
Import Py Data Engine.

(** The namespace argparse returns; every flag is declared without a
    default, so an omitted flag is [None]. *)
Record Args := MkArgs {
  format : ostr;
  t1 : ostr;
  t2 : ostr;
  t1p : ostr;
  t2p : ostr;
  pk : ostr;
  e : ostr;
  i : ostr;
  f : ostr;
  o : ostr;
  of_ : ostr;
  p : option Z
}.

(** What a function of the script returns where a DataFrame is expected:
    a function that ends without [return <value>] returns [None]. *)
Inductive pyval :=
| PyNone
| PyDF (r : relation).

Global Instance pyval_eq_dec : EqDecision pyval.
Proof. solve_decision. Defined.

(** The literal [['parquet', 'orc', 'csv']] of both branches. *)
Definition file_formats : list string := ["parquet"; "orc"; "csv"].

(** [x.split(",")] on an argument: [None] has no [split]. *)
Definition split_comma (x : ostr) : M (list string) :=
  match x with
  | Some s => mret (split "," s)
  | None => raise (AttributeError "'NoneType' object has no attribute 'split'")
  end.

(** [table_DF.select(cols)]. *)
Definition df_select (v : pyval) (cols : list string) : M relation :=
  match v with
  | PyNone => raise (AttributeError "'NoneType' object has no attribute 'select'")
  | PyDF r =>
      match project cols r with
      | Some r' => mret r'
      | None => raise (AnalysisException "cannot resolve column")
      end
  end.

(** [result.show()]. *)
Definition show (v : pyval) : M unit :=
  match v with
  | PyNone => raise (AttributeError "'NoneType' object has no attribute 'show'")
  | PyDF r => emit (OutShow r)
  end.

(** The text [load_table] builds for [spark.sql]:
    the select clause, then the where clause. *)
Definition load_table_sql (t1p pk i f : ostr) (view_name : string) : string :=
  let cols := match i with None => "*" | Some s => s end in
  let sql := "select " +:+ fstr pk +:+ "," +:+ cols +:+ " from " +:+ view_name in
  let where_clause :=
    if neqb t1p "None" && neqb f "None"
    then " where " +:+ fstr t1p +:+ " and " +:+ fstr f
    else if neqb t1p "None" then " where " +:+ fstr t1p
    else if neqb f "None" then " where " +:+ fstr f
    else "" in
  sql +:+ where_clause.

(** The conjuncts the hive branch keeps:
    [x for x in [t1p, t2p, f] if x is not None and x != 'None']. *)
Definition kept (x : ostr) : option string :=
  if is_not_None x && neqb x "None" then x else None.

(** The text the hive branch of [valid_pk_only_in_one_table] builds. *)
Definition hive_sql (t1 t2 t1p t2p pk f : ostr) : string :=
  let sql := "select " +:+ fstr pk +:+ " from " +:+ fstr t1 +:+
             " except select " +:+ fstr pk +:+ " from " +:+ fstr t2 in
  let where_clause :=
    if existsb is_not_None [t1p; t2p; f]
    then " where " +:+ join " and " (omap kept [t1p; t2p; f])
    else "" in
  sql +:+ where_clause.

Section Script.
Variable sql_exec : gmap string relation → string → result relation.

Definition load_table (format t1 t1p pk e i f : ostr) (view_name : string)
  : M pyval :=
  if in_list format file_formats then
    let path := t1 in
    df ← read_load format path;
    createOrReplaceTempView df view_name;;
    result ← spark_sql sql_exec (load_table_sql t1p pk i f view_name);
    emit (OutDataFrame result);;
    mret PyNone
  else if eqb format "hive" then
    print "----todo---hive-load_table-";;
    mret PyNone
  else mret PyNone.

Definition valid_pk_only_in_one_table
    (format t1 t2 t1p t2p pk e i f o of_ : ostr) : M pyval :=
  if in_list format file_formats then
    load_table format t1 t1p pk e i f "table1";;
    load_table format t2 t2p pk e i f "table2";;
    let sql := "select " +:+ fstr pk +:+ " from table1 except select " +:+
               fstr pk +:+ " from table2" in
    result ← spark_sql sql_exec sql;
    mret (PyDF result)
  else if eqb format "hive" then
    let sql := hive_sql t1 t2 t1p t2p pk f in
    print "-----yuadebug---";;
    print sql;;
    result ← spark_sql sql_exec sql;
    mret (PyDF result)
  else mret PyNone.

Definition valid_table (args : Args) : M bool :=
  ex1 ← tableExists (t1 args);
  if negb ex1 then
    print ("|--Table " +:+ fstr (t1 args) +:+ " does not exist!--|");;
    mret false
  else
    ex2 ← tableExists (t2 args);
    if negb ex2 then
      print ("|--Table " +:+ fstr (t2 args) +:+ " does not exist!--|");;
      mret false
    else mret true.

(** The loop over [verify_DF.schema.fields]: its test calls
    [fnmatch.fnmatch], and the module never imports [fnmatch]. *)
Definition check_fields (fields : list (string * dtype)) : M bool :=
  match fields with
  | [] => mret true
  | _ :: _ => raise (NameError "fnmatch")
  end.

Definition valid_metadata_included_column (args : Args) : M bool :=
  if in_list (i args) ["None"; "all"] then mret true
  else
    table_DF ← load_table (format args) (t1 args) (t1p args) (pk args)
                          (e args) (i args) (f args) "";
    excluded ← split_comma (e args);
    let excluded_columns_list := map strip excluded in
    included ← split_comma (i args);
    let verify_column :=
      map strip
          (filter (λ c, c ∉ excluded_columns_list) included) in
    verify_DF ← df_select table_DF verify_column;
    check_fields (schema verify_DF).

Definition valid_input (args : Args) : M bool :=
  ok_table ← valid_table args;
  if negb ok_table then mret false
  else
    ok_column ← valid_metadata_included_column args;
    if negb ok_column then mret false
    else
      (if neqb (format args) "hive"
       then print "|--Currently only support hive format--|"
       else mret ());;
      mret true.

Definition validation (args : Args) : M unit :=
  ok ← valid_input args;
  if negb ok then print "|--Please Check The Inputs --|"
  else
    result ← valid_pk_only_in_one_table
               (format args) (t1 args) (t2 args) (t1p args) (t2p args)
               (pk args) (e args) (i args) (f args) (o args) (of_ args);
    print ("|--PK(s) only in " +:+ fstr (t1 args) +:+ " :--|");;
    show result;;
    print "None";;
    result ← valid_pk_only_in_one_table
               (format args) (t2 args) (t1 args) (t1p args) (t2p args)
               (pk args) (e args) (i args) (f args) (o args) (of_ args);
    print ("|--PK(s) only in " +:+ fstr (t2 args) +:+ " :--|");;
    show result;;
    print "None";;
    print "------------run validation success-----".

End Script.

End Validation.

(** ** A small SQL interpreter

  The engine is not part of the script.  To run the script on concrete
  data, the statements it generates are given their usual relational
  reading: [select <columns> from <name> [where <conjunction>]],
  optionally followed by [except] and a second select, to which a
  trailing [where] then belongs. A statement that ends in the word
  [where] is accepted, as the engine accepts it: the word is then the
  alias of the table. *)

Module MiniSQL.
Import Py Data Engine.

Inductive cmp := CGt | CLt | CEq.

Record atom := Atom { a_col : string; a_op : cmp; a_lit : value }.

Record select := Select {
  s_cols : list string;
  s_from : string;
  s_where : list atom
}.

Inductive query :=
| QSelect (s : select)
| QExcept (l r : select).

(** *** Parsing, over the words of the statement *)

Definition parse_cmp (t : string) : option cmp :=
  if decide (t = ">") then Some CGt
  else if decide (t = "<") then Some CLt
  else if decide (t = "=") then Some CEq
  else None.

Fixpoint parse_digits (acc : Z) (s : string) : option Z :=
  match s with
  | "" => Some acc
  | String a s' =>
      d ← Ascii.is_nat a; parse_digits (10 * acc + Z.of_nat d)%Z s'
  end.

(** A literal: a decimal number with an optional sign, or text between
    single quotes. *)
Definition parse_lit (t : string) : option value :=
  match t with
  | "" => None
  | String "'" body =>
      match String.rev body with
      | String "'" ydob => Some (VStr (String.rev ydob))
      | _ => None
      end
  | String "-" (String d ds) =>
      (λ z, VInt (- z)%Z) <$> parse_digits 0 (String d ds)
  | _ => VInt <$> parse_digits 0 t
  end.

Fixpoint parse_atoms (ts : list string) : option (list atom * list string) :=
  match ts with
  | c :: op :: lit :: rest =>
      o ← parse_cmp op;
      v ← parse_lit lit;
      match rest with
      | kw :: rest' =>
          if decide (kw = "and")
          then '(more, rest'') ← parse_atoms rest';
               Some (Atom c o v :: more, rest'')
          else Some ([Atom c o v], rest)
      | [] => Some ([Atom c o v], [])
      end
  | _ => None
  end.

Definition parse_select (ts : list string) : option (select * list string) :=
  match ts with
  | kw1 :: cols :: kw2 :: name :: rest =>
      if bool_decide (kw1 = "select") && bool_decide (kw2 = "from") then
        match rest with
        | kw3 :: rest' =>
            if decide (kw3 = "where")
            then match rest' with
                 | [] =>
                     (* a last word after the table is its alias *)
                     Some (Select (split "," cols) name [], [])
                 | _ :: _ =>
                     '(atoms, rest'') ← parse_atoms rest';
                     Some (Select (split "," cols) name atoms, rest'')
                 end
            else Some (Select (split "," cols) name [], rest)
        | [] => Some (Select (split "," cols) name [], [])
        end
      else None
  | _ => None
  end.

Definition parse_query (ts : list string) : option query :=
  '(l, rest) ← parse_select ts;
  match rest with
  | [] => Some (QSelect l)
  | kw :: rest' =>
      if decide (kw = "except")
      then '(r, rest'') ← parse_select rest';
           match rest'' with
           | [] => Some (QExcept l r)
           | _ :: _ => None
           end
      else None
  end.

(** *** Evaluation over a catalog *)

Definition compare (op : cmp) (v w : value) : bool :=
  match op, v, w with
  | CGt, VInt a, VInt b => bool_decide (b < a)%Z
  | CLt, VInt a, VInt b => bool_decide (a < b)%Z
  | CEq, _, _ => bool_decide (v = w)
  | _, _, _ => false
  end.

(** An atom resolved against a schema: the column's position. *)
Definition resolve (sch : list (string * dtype)) (a : atom)
  : option (nat * cmp * value) :=
  k ← col_index (a_col a) sch; Some (k, a_op a, a_lit a).

Definition holds (row : list value) (t : nat * cmp * value) : bool :=
  match row !! t.1.1 with
  | Some v => compare t.1.2 v t.2
  | None => false
  end.

(** [*] stands for every column of the source. *)
Definition expand (sch : list (string * dtype)) (c : string) : list string :=
  if decide (c = "*") then sch.*1 else [c].

Definition eval_select (env : gmap string relation) (s : select)
  : result relation :=
  match env !! s_from s with
  | None => Raise (AnalysisException "Table or view not found")
  | Some r =>
      match mapM (resolve (schema r)) (s_where s) with
      | None => Raise (AnalysisException "cannot resolve column")
      | Some tests =>
          let matching :=
            filter (λ row, forallb (holds row) tests) (rows r) in
          match project (s_cols s ≫= expand (schema r))
                        (Relation (schema r) matching) with
          | Some r' => Ok r'
          | None => Raise (AnalysisException "cannot resolve column")
          end
      end
  end.

(** [EXCEPT]: the distinct rows of the left operand absent from the
    right one. *)
Definition except (l r : relation) : result relation :=
  if decide (length (schema l) = length (schema r))
  then Ok (Relation (schema l)
                    (remove_dups (list_difference (rows l) (rows r))))
  else Raise (AnalysisException "EXCEPT needs the same number of columns").

Definition eval (env : gmap string relation) (q : query) : result relation :=
  match q with
  | QSelect s => eval_select env s
  | QExcept l r =>
      match eval_select env l with
      | Raise e => Raise e
      | Ok rl =>
          match eval_select env r with
          | Raise e => Raise e
          | Ok rr => except rl rr
          end
      end
  end.

Definition exec (env : gmap string relation) (text : string)
  : result relation :=
  match parse_query (String.words text) with
  | Some q => eval env q
  | None => Raise (ParseException text)
  end.

End MiniSQL.

(** ** The vocabulary of the specification *)

Module Spec.
Import Py Data Engine Validation.

(** The storage formats the script knows. *)
Definition known_formats : list string := ["parquet"; "orc"; "csv"; "hive"].

(** A predicate is present when it is not the sentinel ['None']. *)
Definition present (x : ostr) : Prop := x ≠ Some "None".

(** The where clause of the load: both predicates joined by [and], the
    one that is present, or nothing. *)
Inductive where_clause_spec (part filt : ostr) : string → Prop :=
| where_both : present part → present filt →
    where_clause_spec part filt
      (" where " +:+ fstr part +:+ " and " +:+ fstr filt)
| where_part : present part → ¬ present filt →
    where_clause_spec part filt (" where " +:+ fstr part)
| where_filt : ¬ present part → present filt →
    where_clause_spec part filt (" where " +:+ fstr filt)
| where_none : ¬ present part → ¬ present filt →
    where_clause_spec part filt "".

(** The answer of the catalog on a name: the table exists, or it does
    not. A name the catalog refuses has neither answer. *)
Definition exists_in_catalog (st : Spark) (n : string) : Prop :=
  value_of (tableExists (Some n) st) = Ok true.
Definition missing_from_catalog (st : Spark) (n : string) : Prop :=
  value_of (tableExists (Some n) st) = Ok false.

(** The session after printing [outs], nothing else changed. *)
Definition after_printing (st : Spark) (outs : list output) : Spark :=
  MkSpark (catalog st) (files st) (stdout st ++ outs) (trace st).

End Spec.

(** ** Concrete sessions and command lines *)

Module Inputs.
Import Py Data Engine Validation.

Definition keys (ids : list Z) : relation :=
  Relation [("id", TInt)] ((λ k, [VInt k]) <$> ids).

(** Two outputs of the same job, with an amount per key. *)
Definition amounts : list (string * dtype) := [("id", TInt); ("amount", TInt)].
Definition cpu_amounts : relation :=
  Relation amounts [[VInt 1; VInt 50]; [VInt 2; VInt 500]].
Definition gpu_amounts : relation :=
  Relation amounts [[VInt 2; VInt 500]].

(** The rows of [cpu_amounts] with [amount > 100]. *)
Definition cpu_amounts_over_100 : relation :=
  Relation amounts [[VInt 2; VInt 500]].

Definition session (tables paths : list (string * relation)) : Spark :=
  MkSpark (list_to_map tables) (list_to_map paths) [] [].

Definition amount_files : Spark :=
  session [] [("cpu_out", cpu_amounts); ("gpu_out", gpu_amounts)].
Definition amount_files_over_100 : Spark :=
  session [] [("cpu_out", cpu_amounts_over_100); ("gpu_out", gpu_amounts)].

(** A partitioned dataset that also has a column called [None]: the
    include sentinel is interpolated into the select list of the load. *)
Definition daily : relation :=
  Relation [("id", TInt); ("dt", TInt); ("None", TInt)]
           [[VInt 1; VInt 1; VInt 0]; [VInt 2; VInt 2; VInt 0]].

Definition daily_session : Spark :=
  session [("cpu_out", daily); ("gpu_out", daily)]
          [("cpu_out", daily); ("gpu_out", daily)].

(** [--format parquet --t1 cpu_out --t2 gpu_out --t1p "dt = 1" --t2p None
     --pk id --e None --i None --f None] *)
Definition one_sided_partition : Args :=
  MkArgs (Some "parquet") (Some "cpu_out") (Some "gpu_out")
         (Some "dt = 1") (Some "None") (Some "id")
         (Some "None") (Some "None") (Some "None") None None None.

(** A hive table with a date column. *)
Definition dated : relation :=
  Relation [("id", TInt); ("date_col", TDate)] [[VInt 1; VDate 19000]].

Definition dated_session : Spark :=
  session [("cpu_out", dated); ("gpu_out", dated)] [].

(** [--format hive --t1 cpu_out --t2 gpu_out --t1p None --t2p None
     --pk id --e None --i date_col --f None] *)
Definition include_date : Args :=
  MkArgs (Some "hive") (Some "cpu_out") (Some "gpu_out")
         (Some "None") (Some "None") (Some "id")
         (Some "None") (Some "date_col") (Some "None") None None None.

(** [--format json ...] on existing tables. *)
Definition json_format : Args :=
  MkArgs (Some "json") (Some "cpu_out") (Some "gpu_out")
         (Some "None") (Some "None") (Some "id")
         (Some "None") (Some "None") (Some "None") None None None.

(** [--t2 absent]: the second table is not in the catalog. *)
Definition second_missing : Args :=
  MkArgs (Some "hive") (Some "cpu_out") (Some "absent")
         (Some "None") (Some "None") (Some "id")
         (Some "None") (Some "None") (Some "None") None None None.

(** The two outputs as files, with tables of the same names in the
    catalog. *)
Definition amount_session : Spark :=
  session [("cpu_out", cpu_amounts); ("gpu_out", gpu_amounts)]
          [("cpu_out", cpu_amounts); ("gpu_out", gpu_amounts)].

(** [--format parquet --t1 cpu_out --t2 gpu_out --t1p None --t2p None
     --pk id --e None --i None --f None]: no include list. *)
Definition no_include : Args :=
  MkArgs (Some "parquet") (Some "cpu_out") (Some "gpu_out")
         (Some "None") (Some "None") (Some "id")
         (Some "None") (Some "None") (Some "None") None None None.

(** File-backed datasets named by their paths; the catalog holds no
    table. [--format parquet --t1 /data/cpu_out --t2 /data/gpu_out ...] *)
Definition path_session : Spark :=
  session [] [("/data/cpu_out", cpu_amounts); ("/data/gpu_out", gpu_amounts)].

Definition path_names : Args :=
  MkArgs (Some "parquet") (Some "/data/cpu_out") (Some "/data/gpu_out")
         (Some "None") (Some "None") (Some "id")
         (Some "None") (Some "None") (Some "None") None None None.

(** One hive table holding a single small amount. *)
Definition small_amount : relation := Relation amounts [[VInt 1; VInt 50]].
Definition hive_session : Spark := session [("t", small_amount)] [].

End Inputs.

(** ** The functions [validation] does not call

  [partition_to_path] and [get_cols_diff_with_same_pk] are defined by the
  script; their calls are commented out. *)

Module Partition.
Import Py.

(** [s.split(sep)] for a separator of several characters: the string is
    cut at the leftmost occurrences of [sep], which do not overlap.
    [skip] counts the characters of a matched separator still to pass. *)
Fixpoint split_on (sep : string) (skip : nat) (s : string) : list string :=
  match s with
  | "" => [""]
  | String a s' =>
      match skip with
      | S k => split_on sep k s'
      | O =>
          if String.prefix sep s
          then "" :: split_on sep (Nat.pred (String.length sep)) s'
          else match split_on sep 0 s' with
               | w :: ws => String a w :: ws
               | [] => [String a ""]
               end
      end
  end.

(** [s.split("and")]. *)
Definition split_and (s : string) : list string := split_on "and" 0 s.

(** [s.replace(" ", "")]. *)
Fixpoint remove_spaces (s : string) : string :=
  match s with
  | "" => ""
  | String a s' =>
      if decide (a = " "%char) then remove_spaces s'
      else String a (remove_spaces s')
  end.

(** [d[k] = v] on a dict, kept in insertion order: a key already there
    keeps its place and takes the new value. *)
Fixpoint dict_set (k v : string) (d : list (string * string))
  : list (string * string) :=
  match d with
  | [] => [(k, v)]
  | (k', v') :: d' =>
      if decide (k' = k) then (k, v) :: d' else (k', v') :: dict_set k v d'
  end.

(** [dict(elements)], from element number [n] on: an element that has not
    exactly two parts stops the construction with its number and its
    length ([ValueError: dictionary update sequence element #n has length
    m; 2 is required]). *)
Fixpoint dict_from (n : nat) (elements : list (list string))
    (d : list (string * string)) : list (string * string) + nat * nat :=
  match elements with
  | [] => inl d
  | [k; v] :: rest => dict_from (S n) rest (dict_set k v d)
  | parts :: _ => inr (n, length parts)
  end.

Inductive outcome :=
| Path (s : string)
| ValueError (element found : nat).

Global Instance outcome_eq_dec : EqDecision outcome.
Proof. solve_decision. Defined.

(** [if partition_str:] holds for a non-empty [str]. *)
Definition truthy (x : ostr) : bool :=
  match x with
  | Some (String _ _) => true
  | _ => false
  end.

Definition partition_to_path (partition_str path : ostr) : outcome :=
  let partition :=
    if truthy partition_str then
      let partition_items := split_and (fstr partition_str) in
      dict_from 0 (split "=" <$> partition_items) []
    else inl [] in
  match partition with
  | inr (n, m) => ValueError n m
  | inl d =>
      let partition_path :=
        join "/" ((λ cv : string * string, cv.1 +:+ "=" +:+ cv.2) <$> d) in
      Path (remove_spaces (fstr path +:+ "/" +:+ partition_path))
  end.

End Partition.

Module Columns.
Import Py Data Engine Validation Partition.

Definition newline : string := String "010" "".

(** The margins of the triple-quoted statement. *)
Definition margin : string := "                    ".
Definition last_margin : string := "                ".

(** [x.split("and")] on an argument: [None] has no [split]. *)
Definition split_and_arg (x : ostr) : M (list string) :=
  match x with
  | Some s => mret (split_and s)
  | None => raise (AttributeError "'NoneType' object has no attribute 'split'")
  end.

(** [[c for c in included_columns_list if c not in excluded_columns_list]]. *)
Definition compared (included_columns_list excluded_columns_list : list string)
  : list string :=
  filter (λ c, c ∉ excluded_columns_list) included_columns_list.

(** The statement before the partition and filter conjuncts. *)
Definition diff_sql (pk_parts pk_list cols : list string) : string :=
  let select_columns :=
    ((λ p, "t1." +:+ p) <$> pk_parts) ++
    ((λ c, "t1." +:+ c +:+ " as t1_" +:+ c +:+ ", t2." +:+ c +:+ " as t2_" +:+ c)
       <$> cols) in
  newline +:+ margin +:+ "SELECT " +:+ join ", " select_columns +:+
  newline +:+ margin +:+ "FROM table1 t1" +:+
  newline +:+ margin +:+ "FULL OUTER JOIN table2 t2 ON " +:+
    join " AND " ((λ c, "t1." +:+ c +:+ " = t2." +:+ c) <$> pk_list) +:+
  newline +:+ margin +:+ "WHERE (" +:+
    join " or " ((λ c, "t1." +:+ c +:+ " <> t2." +:+ c) <$> cols) +:+ " )" +:+
  newline +:+ last_margin.

(** [' AND ( ' + ' AND '.join([f't1.{p} ' for p in parts]) + ' )'] over
    the stripped parts. *)
Definition conjuncts (parts : list string) : string :=
  " AND ( " +:+ join " AND " ((λ p, "t1." +:+ p +:+ " ") <$> (strip <$> parts))
  +:+ " )".

(** [sql += ...] when the argument is not the text ['None']. *)
Definition add_conjuncts (x : ostr) (sql : string) : M string :=
  if neqb x "None" then
    parts ← split_and_arg x;
    mret (sql +:+ conjuncts parts)
  else mret sql.

Section Script.
Variable sql_exec : gmap string relation → string → result relation.

Definition get_cols_diff_with_same_pk
    (format table1_name table2_name pk partitions filter
     included_columns excluded_columns : ostr) : M pyval :=
  if in_list format file_formats then
    pk_parts ← split_comma pk;
    let pk_list := strip <$> pk_parts in
    included ← split_comma included_columns;
    let included_columns_list := strip <$> included in
    excluded ← split_comma excluded_columns;
    let excluded_columns_list := strip <$> excluded in
    let sql :=
      diff_sql pk_parts pk_list
               (compared included_columns_list excluded_columns_list) in
    sql ← add_conjuncts partitions sql;
    sql ← add_conjuncts filter sql;
    result ← spark_sql sql_exec sql;
    mret (PyDF result)
  else if eqb format "hive" then
    print "----todo---hive-load_table-";;
    mret PyNone
  else mret PyNone.

End Script.

End Columns.

(** ** Well-formed partition strings

  The vocabulary used to state what [partition_to_path] does on the
  strings it is meant for: [k1=v1 and k2=v2 ...]. *)

Module Wellformed.
Import Py Partition.

(** [sep in s]: the separator occurs somewhere in the string. *)
Fixpoint occurs (sep s : string) : bool :=
  String.prefix sep s ||
  match s with
  | "" => false
  | String _ s' => occurs sep s'
  end.

(** A column name or value with no space, no [=] and no [and] inside. *)
Definition plain (s : string) : Prop :=
  occurs " " s = false ∧ occurs "=" s = false ∧ occurs "and" s = false.

(** [f"{col}={val}"]. *)
Definition render (cv : string * string) : string := cv.1 +:+ "=" +:+ cv.2.

Definition pair_list (cv : string * string) : list string := [cv.1; cv.2].

Definition no_eq (cv : string * string) : Prop :=
  occurs "=" cv.1 = false ∧ occurs "=" cv.2 = false.

(** What follows the first item in [" and ".join(items)]. *)
Fixpoint tail_str (items : list string) : string :=
  match items with
  | [] => ""
  | y :: rest => " and " +:+ y +:+ tail_str rest
  end.

(** The pieces [split("and")] leaves: the blanks around each [and] stay
    with the neighbouring items. *)
Fixpoint shape (w : string) (items : list string) : list string :=
  match items with
  | [] => [w]
  | y :: rest => (w +:+ " ") :: shape (" " +:+ y) rest
  end.

(** The same pieces, cut at [=]. *)
Fixpoint padded (k v : string) (rest : list (string * string))
  : list (string * string) :=
  match rest with
  | [] => [(k, v)]
  | (k', v') :: rest' => (k, v +:+ " ") :: padded (" " +:+ k') v' rest'
  end.

Definition squeezed (cv : string * string) : string :=
  remove_spaces cv.1 +:+ "=" +:+ remove_spaces cv.2.

(** [--format hive --t1 t --t2 t ... --f <filter>] on one table. *)
Definition hive_self (flt : string) : Validation.Args :=
  Validation.MkArgs (Some "hive") (Some "t") (Some "t")
    (Some "None") (Some "None") (Some "id")
    (Some "None") (Some "None") (Some flt) None None None.

(** [--format hive --t1 t --t2 t --pk nokey ...]: the key is no column
    of the table. *)
Definition hive_unknown_key : Validation.Args :=
  Validation.MkArgs (Some "hive") (Some "t") (Some "t")
    (Some "None") (Some "None") (Some "nokey")
    (Some "None") (Some "None") (Some "amount > 100") None None None.

End Wellformed.

(** ** Properties of the script *)

Module Properties.
Import Py Data Engine Validation Spec Inputs.

(** Unfolds the primitives of the session monad. *)
Ltac run :=
  unfold issued, printed, value_of, after_printing, print, emit, spark_sql,
    record, interpret, read_load, open_path, createOrReplaceTempView,
    bind_view, tableExists, raise, mbind, M_bind, mret, M_ret; simpl.

(** *** Names *)

Lemma resolves_present (cat : gmap string relation) n r :
  cat !! n = Some r → resolves cat n = true.
Proof.
  intros Hn. unfold resolves. apply existsb_exists. exists n. split.
  - apply list_elem_of_In, list_elem_of_fmap. exists (n, r).
    split; [done|]. by apply elem_of_map_to_list.
  - by apply bool_decide_eq_true.
Qed.

Lemma resolves_false_None (cat : gmap string relation) n :
  resolves cat n = false → cat !! n = None.
Proof.
  intros Hn. destruct (cat !! n) as [r|] eqn:E; [|done].
  by rewrite (resolves_present cat n r E) in Hn.
Qed.

Lemma tableExists_present st n :
  is_Some (catalog st !! n) → tableExists (Some n) st = (Ok true, st).
Proof.
  intros [r Hr]. unfold tableExists. by rewrite (resolves_present _ _ _ Hr).
Qed.

Lemma table1_identifier : simple_identifier "table1" = true.
Proof. reflexivity. Qed.

Lemma table2_identifier : simple_identifier "table2" = true.
Proof. reflexivity. Qed.

(** *** Sequencing *)

Lemma bind_ok {A B} (m : M A) (k : A → M B) st a st' :
  m st = (Ok a, st') → (m ≫= k) st = k a st'.
Proof. intros H. unfold mbind, M_bind. by rewrite H. Qed.

Lemma bind_raise {A B} (m : M A) (k : A → M B) st x st' :
  m st = (Raise x, st') → (m ≫= k) st = (Raise x, st').
Proof. intros H. unfold mbind, M_bind. by rewrite H. Qed.

(** The lookup leaves the session as it is. *)
Lemma tableExists_answer name st b :
  value_of (tableExists name st) = Ok b → tableExists name st = (Ok b, st).
Proof.
  unfold tableExists, value_of. destruct name as [n|]; [|done].
  destruct (resolves _ _); [|destruct (table_identifier n)]; simpl;
    congruence.
Qed.

(** On table identifiers the answer is the content of the catalog. *)
Lemma missing_from_catalog_identifier st n :
  table_identifier n = true →
  missing_from_catalog st n ↔ resolves (catalog st) n = false.
Proof.
  intros Hn. unfold missing_from_catalog, tableExists, value_of.
  destruct (resolves _ _); simpl; [naive_solver|]. by rewrite Hn.
Qed.

Lemma valid_table_true args st n1 n2 :
  t1 args = Some n1 → t2 args = Some n2 →
  is_Some (catalog st !! n1) → is_Some (catalog st !! n2) →
  valid_table args st = (Ok true, st).
Proof.
  intros H1 H2 E1 E2. unfold valid_table. rewrite H1, H2.
  rewrite (bind_ok _ _ _ _ _ (tableExists_present st n1 E1)). simpl.
  by rewrite (bind_ok _ _ _ _ _ (tableExists_present st n2 E2)).
Qed.

Lemma valid_table_first_missing args st n1 :
  t1 args = Some n1 → missing_from_catalog st n1 →
  valid_table args st
  = (Ok false,
     after_printing st [OutStr ("|--Table " +:+ n1 +:+ " does not exist!--|")]).
Proof.
  intros H1 E1%tableExists_answer. unfold valid_table. rewrite H1.
  by rewrite (bind_ok _ _ _ _ _ E1).
Qed.

Lemma valid_table_second_missing args st n1 n2 :
  t1 args = Some n1 → t2 args = Some n2 →
  exists_in_catalog st n1 → missing_from_catalog st n2 →
  valid_table args st
  = (Ok false,
     after_printing st [OutStr ("|--Table " +:+ n2 +:+ " does not exist!--|")]).
Proof.
  intros H1 H2 E1%tableExists_answer E2%tableExists_answer.
  unfold valid_table. rewrite H1, H2.
  rewrite (bind_ok _ _ _ _ _ E1). simpl.
  by rewrite (bind_ok _ _ _ _ _ E2).
Qed.

(** *** The sentinel test *)

Lemma neqb_present x : neqb x "None" = true ↔ present x.
Proof.
  unfold neqb, eqb, present.
  by rewrite negb_true_iff, bool_decide_eq_false.
Qed.

Lemma neqb_absent x : neqb x "None" = false ↔ ¬ present x.
Proof. rewrite <- neqb_present. destruct (neqb x "None"); naive_solver. Qed.

Lemma in_list_known format :
  in_list format known_formats = false →
  in_list format file_formats = false ∧ eqb format "hive" = false.
Proof.
  unfold known_formats, file_formats, in_list. simpl. intros H.
  repeat (apply orb_false_elim in H as [? H]).
  split; [|done]. by repeat (apply orb_false_intro; [done|]).
Qed.

(** *** [load_table] *)

Lemma append_empty s : s +:+ "" = s.
Proof. induction s as [|a s IH]; [done|]. by rewrite <- IH at 2. Qed.

(** The statement of the load is the statement without predicates,
    followed by the where clause in the reading of the specification. *)
Lemma load_table_where_clause t1p pk i f view_name :
  ∃ w, where_clause_spec t1p f w ∧
       load_table_sql t1p pk i f view_name =
       load_table_sql (Some "None") pk i (Some "None") view_name +:+ w.
Proof.
  unfold load_table_sql.
  change (neqb (Some "None") "None") with false. cbn [andb].
  rewrite append_empty.
  destruct (neqb t1p "None") eqn:Hp, (neqb f "None") eqn:Hf; simpl;
    eexists; (split; [|reflexivity]).
  - apply where_both; by apply neqb_present.
  - apply where_part; [by apply neqb_present | by apply neqb_absent].
  - apply where_filt; [by apply neqb_absent | by apply neqb_present].
  - apply where_none; by apply neqb_absent.
Qed.

(** [load_table] has no [return] with a value: whenever it returns, it
    returns [None]. *)
Lemma load_table_returns_None sql_exec format t1 t1p pk e i f view_name st v st' :
  load_table sql_exec format t1 t1p pk e i f view_name st = (Ok v, st') →
  v = PyNone.
Proof.
  unfold load_table.
  destruct (in_list format file_formats); [|destruct (eqb format "hive")].
  - destruct t1 as [path|]; run; [|done].
    destruct (files st !! path); simpl; [|done].
    destruct (simple_identifier view_name); simpl; [|done].
    destruct (sql_exec _ _); simpl; congruence.
  - run. congruence.
  - run. congruence.
Qed.

(** C7. With the include option ['None'], which stands for no include
    list, the select of the load does not project [*]: the sentinel is
    written into the column list, [select id,None from table1], and the
    engine refuses the statement on data that has no column of that
    name, so that [validation] ends with [AnalysisException] on its
    first load. The statement with [*] is accepted on the same view. *)
Theorem include_sentinel_is_selected :
  let out := validation MiniSQL.exec no_include amount_session in
  issued out
  = [EvLoad (Some "parquet") (Some "cpu_out"); EvView "table1";
     EvSql "select id,None from table1"] ∧
  value_of out = Raise (AnalysisException "cannot resolve column") ∧
  MiniSQL.exec (<["table1" := cpu_amounts]> (catalog amount_session))
               "select id,* from table1"
  = Ok (Relation [("id", TInt); ("id", TInt); ("amount", TInt)]
                 [[VInt 1; VInt 1; VInt 50]; [VInt 2; VInt 2; VInt 500]]).
Proof. by vm_compute. Qed.

(** The views of the file-backed branch hold the whole files: whatever
    the predicates, the result is the answer of the engine to the except
    statement over the unfiltered loads. *)
Lemma except_reads_whole_files
    sql_exec format a b t1p t2p pk e i f o of_ st ra rb r :
  in_list format file_formats = true →
  files st !! a = Some ra → files st !! b = Some rb →
  value_of (valid_pk_only_in_one_table sql_exec format (Some a) (Some b)
              t1p t2p pk e i f o of_ st) = Ok (PyDF r) →
  sql_exec (<["table2" := rb]> (<["table1" := ra]> (catalog st)))
           ("select " +:+ fstr pk +:+ " from table1 except select " +:+
            fstr pk +:+ " from table2") = Ok r.
Proof.
  intros Hfmt Ha Hb.
  unfold valid_pk_only_in_one_table, load_table. rewrite Hfmt. run.
  rewrite Ha. simpl.
  destruct (sql_exec _ (load_table_sql t1p _ _ _ _)); simpl; [|done].
  rewrite Hb. simpl.
  destruct (sql_exec _ (load_table_sql t2p _ _ _ _)); simpl; [|done].
  destruct (sql_exec _ _); simpl; congruence.
Qed.

(** *** [valid_pk_only_in_one_table] *)

(** C5. For a format outside parquet, orc, csv and hive,
    [valid_pk_only_in_one_table] returns [None]: nothing is raised, and
    the session is left as it was, so that no query is issued and
    nothing is printed. *)
Theorem unknown_format_is_noop
    sql_exec format t1 t2 t1p t2p pk e i f o of_ st :
  in_list format known_formats = false →
  valid_pk_only_in_one_table sql_exec format t1 t2 t1p t2p pk e i f o of_ st
  = (Ok PyNone, st).
Proof.
  intros [Hfile Hhive]%in_list_known.
  unfold valid_pk_only_in_one_table. by rewrite Hfile, Hhive.
Qed.

Lemma unknown_format_is_noop_witness :
  in_list (Some "json") known_formats = false ∧
  valid_pk_only_in_one_table MiniSQL.exec (Some "json") (Some "cpu_out")
    (Some "gpu_out") (Some "None") (Some "None") (Some "id") (Some "None")
    (Some "None") (Some "None") None None dated_session
  = (Ok PyNone, dated_session).
Proof.
  assert (Hfmt : in_list (Some "json") known_formats = false)
    by reflexivity.
  split; [exact Hfmt|].
  exact (unknown_format_is_noop MiniSQL.exec (Some "json") (Some "cpu_out")
           (Some "gpu_out") (Some "None") (Some "None") (Some "id")
           (Some "None") (Some "None") (Some "None") None None
           dated_session Hfmt).
Defined.

(** C9. In the hive branch, when the two partition predicates and the
    row filter are all the text ['None'], the statement handed to the
    engine (and printed before) is the except statement followed by a
    bare [" where "]: the guard on [None] passes, and every conjunct is
    then dropped. *)
Theorem hive_sentinels_leave_bare_where sql_exec t1 t2 pk e i o of_ st :
  let out := valid_pk_only_in_one_table sql_exec (Some "hive") t1 t2
               (Some "None") (Some "None") pk e i (Some "None") o of_ st in
  let text := ("select " +:+ fstr pk +:+ " from " +:+ fstr t1 +:+
               " except select " +:+ fstr pk +:+ " from " +:+ fstr t2)
              +:+ " where " in
  issued out = trace st ++ [EvSql text] ∧
  printed out = stdout st ++ [OutStr "-----yuadebug---"; OutStr text].
Proof.
  simpl. unfold valid_pk_only_in_one_table, hive_sql. simpl. run.
  destruct (sql_exec _ _); simpl; by rewrite <- !app_assoc.
Qed.

(** With the flags omitted instead ([None] rather than ['None']), the
    hive statement has no where clause at all. *)
Lemma hive_omitted_flags_no_where t1 t2 pk :
  hive_sql t1 t2 None None pk None =
  ("select " +:+ fstr pk +:+ " from " +:+ fstr t1 +:+
   " except select " +:+ fstr pk +:+ " from " +:+ fstr t2) +:+ "".
Proof. reflexivity. Qed.

(** *** [valid_input] and [validation] *)

(** C6, as the code has it. When the catalog answers that one of the two
    named tables does not exist (the first, or the second while the
    first exists), [valid_input] returns [False] after printing the
    diagnostic that names this table, and [validation] then prints its
    message and returns normally: nothing is raised and the calls issued
    to the engine are unchanged, so no comparison query runs. *)
Theorem missing_table_stops_validation sql_exec args st n1 n2 missing :
  t1 args = Some n1 → t2 args = Some n2 →
  (missing = n1 ∧ missing_from_catalog st n1) ∨
  (missing = n2 ∧ exists_in_catalog st n1 ∧ missing_from_catalog st n2) →
  let diag := OutStr ("|--Table " +:+ missing +:+ " does not exist!--|") in
  valid_input sql_exec args st = (Ok false, after_printing st [diag]) ∧
  validation sql_exec args st
  = (Ok (), after_printing st [diag; OutStr "|--Please Check The Inputs --|"]).
Proof.
  intros H1 H2 Hmiss. simpl.
  assert (valid_table args st
          = (Ok false,
             after_printing st
               [OutStr ("|--Table " +:+ missing +:+ " does not exist!--|")]))
    as Htable.
  { destruct Hmiss as [[-> E1]|(-> & E1 & E2)].
    - by apply valid_table_first_missing.
    - by apply (valid_table_second_missing args st n1). }
  assert (valid_input sql_exec args st
          = (Ok false,
             after_printing st
               [OutStr ("|--Table " +:+ missing +:+ " does not exist!--|")]))
    as Hinput.
  { unfold valid_input. by rewrite (bind_ok _ _ _ _ _ Htable). }
  split; [done|].
  unfold validation. rewrite (bind_ok _ _ _ _ _ Hinput). run.
  by rewrite <- app_assoc.
Qed.

Lemma missing_table_stops_validation_witness :
  let st := dated_session in
  let diag := OutStr "|--Table absent does not exist!--|" in
  (exists_in_catalog st "cpu_out" ∧ missing_from_catalog st "absent") ∧
  valid_input MiniSQL.exec second_missing st
  = (Ok false, after_printing st [diag]) ∧
  validation MiniSQL.exec second_missing st
  = (Ok (), after_printing st [diag; OutStr "|--Please Check The Inputs --|"]).
Proof.
  assert (E1 : exists_in_catalog dated_session "cpu_out") by reflexivity.
  assert (E2 : missing_from_catalog dated_session "absent") by reflexivity.
  split; [exact (conj E1 E2)|].
  exact (missing_table_stops_validation MiniSQL.exec second_missing
           dated_session "cpu_out" "absent" "absent" eq_refl eq_refl
           (or_intror (conj eq_refl (conj E1 E2)))).
Defined.

(** C6, as stated, fails: a file-backed dataset is named by its path; the
    catalog holds no table of that name, and the lookup does not answer
    [False] but refuses the name, so that [valid_input] and [validation]
    end with [ParseException] and neither diagnostic is printed. *)
Lemma path_name_raises :
  catalog path_session !! "/data/cpu_out" = None ∧
  valid_input MiniSQL.exec path_names path_session
  = (Raise (ParseException "/data/cpu_out"), path_session) ∧
  validation MiniSQL.exec path_names path_session
  = (Raise (ParseException "/data/cpu_out"), path_session).
Proof. split; [reflexivity|]. split; by vm_compute. Qed.

(** C4, as the code has it. [valid_input] does not fail on the format:
    when both tables exist and the include option is ['None'] or
    ['all'], it returns [True] for every format, after printing the
    notice [|--Currently only support hive format--|] when the format is
    not ['hive']; no call reaches the engine. *)
Theorem format_never_fails sql_exec args st n1 n2 :
  t1 args = Some n1 → t2 args = Some n2 →
  is_Some (catalog st !! n1) → is_Some (catalog st !! n2) →
  in_list (i args) ["None"; "all"] = true →
  let notice := if eqb (format args) "hive" then []
                else [OutStr "|--Currently only support hive format--|"] in
  valid_input sql_exec args st = (Ok true, after_printing st notice).
Proof.
  intros H1 H2 E1 E2 Hi. simpl. unfold valid_input.
  rewrite (bind_ok _ _ _ _ _ (valid_table_true args st n1 n2 H1 H2 E1 E2)).
  simpl. unfold valid_metadata_included_column. rewrite Hi. run.
  unfold neqb. destruct (eqb (format args) "hive"); simpl; [|done].
  rewrite app_nil_r. by destruct st.
Qed.

Lemma format_never_fails_witness :
  let st := dated_session in
  is_Some (catalog st !! "cpu_out") ∧ is_Some (catalog st !! "gpu_out") ∧
  in_list (i json_format) ["None"; "all"] = true ∧
  valid_input MiniSQL.exec json_format st
  = (Ok true,
     after_printing st [OutStr "|--Currently only support hive format--|"]).
Proof.
  assert (E1 : is_Some (catalog dated_session !! "cpu_out"))
    by (vm_compute; eauto).
  assert (E2 : is_Some (catalog dated_session !! "gpu_out"))
    by (vm_compute; eauto).
  assert (Hi : in_list (i json_format) ["None"; "all"] = true)
    by reflexivity.
  split; [exact E1|]. split; [exact E2|]. split; [exact Hi|].
  exact (format_never_fails MiniSQL.exec json_format dated_session
           "cpu_out" "gpu_out" eq_refl eq_refl E1 E2 Hi).
Defined.

(** C4, as stated, fails: with the format [json], which is none of the
    known formats, and both tables in the catalog, [valid_input]
    returns [True], not failure. *)
Lemma json_format_passes :
  in_list (format json_format) known_formats = false ∧
  value_of (valid_input MiniSQL.exec json_format dated_session) = Ok true ∧
  value_of (valid_input MiniSQL.exec json_format dated_session) ≠ Ok false.
Proof. split; [reflexivity|]. split; [by vm_compute|]. by vm_compute. Qed.

(** *** The included-column check *)

(** Past the sentinels, the check cannot answer [False]: [load_table]
    hands back [None], and [select] is then looked up on [None]. *)
Lemma included_column_check_never_fails sql_exec args st :
  value_of (valid_metadata_included_column sql_exec args st) ≠ Ok false.
Proof.
  unfold valid_metadata_included_column, value_of.
  destruct (in_list (i args) ["None"; "all"]); [done|].
  unfold mbind at 1, M_bind.
  destruct (load_table _ _ _ _ _ _ _ _ _ st) as [[v|x] st'] eqn:Hload;
    [|done].
  apply load_table_returns_None in Hload as ->.
  unfold split_comma.
  destruct (e args), (i args); run; done.
Qed.

(** C3. With the include list [date_col], a date column of the first
    table, [valid_input] does not return [False]: it raises
    [AttributeError] at [table_DF.select], after the hive branch of
    [load_table] printed its note, and [validation] ends with the same
    exception. No query was issued. *)
Theorem date_include_raises :
  let cannot_select :=
    AttributeError "'NoneType' object has no attribute 'select'" in
  col_index "date_col" (schema dated) = Some 1%nat ∧
  schema dated !! 1%nat = Some ("date_col", TDate) ∧
  valid_input MiniSQL.exec include_date dated_session
  = (Raise cannot_select,
     after_printing dated_session [OutStr "----todo---hive-load_table-"]) ∧
  value_of (validation MiniSQL.exec include_date dated_session)
  = Raise cannot_select.
Proof. by vm_compute. Qed.

(** *** Filters and the except statement *)

(** C1. On the files [cpu_out] = {(1, 50), (2, 500)} and
    [gpu_out] = {(2, 500)} with the row filter [amount > 100] on both
    sides, the file-backed comparison answers the key 1, although row
    (1, 50) does not satisfy the filter; the unfiltered comparison of
    the rows that satisfy it answers no key. The filtered selects are
    issued, and their results only printed. *)
Theorem filter_does_not_reach_except :
  let compare st flt :=
    valid_pk_only_in_one_table MiniSQL.exec (Some "parquet")
      (Some "cpu_out") (Some "gpu_out") (Some "None") (Some "None")
      (Some "id") (Some "None") None flt None None st in
  MiniSQL.exec (files amount_files) "select * from cpu_out where amount > 100"
  = Ok cpu_amounts_over_100 ∧
  MiniSQL.exec (files amount_files) "select * from gpu_out where amount > 100"
  = Ok gpu_amounts ∧
  value_of (compare amount_files (Some "amount > 100")) = Ok (PyDF (keys [1%Z])) ∧
  value_of (compare amount_files_over_100 (Some "None")) = Ok (PyDF (keys [])) ∧
  queries (issued (compare amount_files (Some "amount > 100")))
  = ["select id,* from table1 where amount > 100";
     "select id,* from table2 where amount > 100";
     "select id from table1 except select id from table2"].
Proof. by vm_compute. Qed.

(** C2. With a partition predicate on the first dataset only
    ([--t1p "dt = 1" --t2p None]), the second comparison of
    [validation] swaps the datasets and not the predicates: [gpu_out]
    is loaded as [table1] with the predicate of [cpu_out], and
    [cpu_out] as [table2] with none. *)
Theorem swapped_call_keeps_predicates :
  issued (validation MiniSQL.exec one_sided_partition daily_session)
  = [EvLoad (Some "parquet") (Some "cpu_out"); EvView "table1";
     EvSql "select id,None from table1 where dt = 1";
     EvLoad (Some "parquet") (Some "gpu_out"); EvView "table2";
     EvSql "select id,None from table2";
     EvSql "select id from table1 except select id from table2";
     EvLoad (Some "parquet") (Some "gpu_out"); EvView "table1";
     EvSql "select id,None from table1 where dt = 1";
     EvLoad (Some "parquet") (Some "cpu_out"); EvView "table2";
     EvSql "select id,None from table2";
     EvSql "select id from table1 except select id from table2"].
Proof. by vm_compute. Qed.

(** *** [EXCEPT] of a relation with itself *)

Lemma list_difference_covered {A} `{EqDecision A} (l k : list A) :
  l ⊆ k → list_difference l k = [].
Proof.
  induction l as [|x l IH]; intros Hsub; simpl; [done|].
  destruct (decide_rel elem_of x k) as [|Hx].
  - apply IH. intros y Hy. apply Hsub. by right.
  - destruct Hx. apply Hsub. by left.
Qed.

Lemma except_same r :
  MiniSQL.except r r = Ok (Relation (schema r) []).
Proof.
  unfold MiniSQL.except. rewrite decide_True by done.
  by rewrite list_difference_covered.
Qed.

(** Two selects of the same columns under the same conditions, from two
    names bound to the same relation, differ by no row. *)
Lemma except_same_source env cols a b conds r :
  env !! a = env !! b →
  MiniSQL.eval env (MiniSQL.QExcept (MiniSQL.Select cols a conds)
                                    (MiniSQL.Select cols b conds)) = Ok r →
  rows r = [].
Proof.
  intros Hab. unfold MiniSQL.eval, MiniSQL.eval_select. simpl. rewrite Hab.
  destruct (env !! b) as [rb|]; [|done].
  destruct (mapM _ conds); [|done].
  destruct (project _ _) as [rp|]; [|done].
  rewrite except_same. by intros [= <-].
Qed.

(** On the file-backed branch a file compared with itself gives no key,
    with or without a filter. *)
Example file_self_comparison_empty :
  value_of (valid_pk_only_in_one_table MiniSQL.exec (Some "parquet")
              (Some "cpu_out") (Some "cpu_out") (Some "None") (Some "None")
              (Some "id") (Some "None") None (Some "amount > 100") None None
              amount_files)
  = Ok (PyDF (keys [])).
Proof. by vm_compute. Qed.

(** C8. In the hive branch, a table holding the single row (1, 50),
    compared with itself under the row filter [amount > 100] and no
    partition predicate, gives the key 1 and not the empty relation:
    the where clause after the except belongs to the second select.
    The two directions are the same call. *)
Theorem hive_self_comparison_not_empty :
  let out := valid_pk_only_in_one_table MiniSQL.exec (Some "hive")
               (Some "t") (Some "t") (Some "None") (Some "None")
               (Some "id") (Some "None") (Some "None")
               (Some "amount > 100") None None hive_session in
  queries (issued out)
  = ["select id from t except select id from t where amount > 100"] ∧
  value_of out = Ok (PyDF (keys [1%Z])).
Proof. by vm_compute. Qed.

End Properties.

(** ** More on the session functions *)

Module SessionProperties.
Import Py Data Engine Validation Spec Inputs Wellformed Properties.

(** X1. With an include option other than ['None'] and ['all'],
    [valid_metadata_included_column] returns no boolean at all: it ends
    with an exception, in every session and for every interpreter. *)
Theorem included_column_check_raises sql_exec args st :
  in_list (i args) ["None"; "all"] = false →
  ∃ x, value_of (valid_metadata_included_column sql_exec args st) = Raise x.
Proof.
  intros Hi. unfold valid_metadata_included_column, value_of. rewrite Hi.
  unfold mbind at 1, M_bind.
  destruct (load_table _ _ _ _ _ _ _ _ _ st) as [[v|x] st'] eqn:Hload;
    [|by eexists].
  apply load_table_returns_None in Hload as ->.
  unfold split_comma.
  destruct (e args), (i args); run; by eexists.
Qed.

Lemma valid_table_false_missing args st st' :
  valid_table args st = (Ok false, st') →
  ∃ n, (t1 args = Some n ∨ t2 args = Some n) ∧ catalog st !! n = None.
Proof.
  unfold valid_table.
  destruct (t1 args) as [n1|] eqn:H1; [|by run].
  destruct (catalog st !! n1) as [r1|] eqn:E1; [|by eauto].
  rewrite (bind_ok _ _ _ _ _ (tableExists_present st n1 (mk_is_Some _ _ E1))).
  simpl.
  destruct (t2 args) as [n2|] eqn:H2; [|by run].
  destruct (catalog st !! n2) as [r2|] eqn:E2; [|by eauto].
  by rewrite (bind_ok _ _ _ _ _ (tableExists_present st n2 (mk_is_Some _ _ E2))).
Qed.

(** X2. [valid_input] answers [False] only when one of the two named
    tables is missing from the catalog. *)
Theorem valid_input_false_names_missing_table sql_exec args st :
  value_of (valid_input sql_exec args st) = Ok false →
  ∃ n, (t1 args = Some n ∨ t2 args = Some n) ∧ catalog st !! n = None.
Proof.
  unfold valid_input, value_of. unfold mbind at 1, M_bind.
  destruct (valid_table args st) as [[[]|x] st'] eqn:Htable; simpl;
    [|by intros _; apply (valid_table_false_missing args st st')|done].
  pose proof (included_column_check_never_fails sql_exec args st') as Hnever.
  unfold value_of in Hnever. unfold mbind at 1, M_bind.
  destruct (valid_metadata_included_column sql_exec args st') as [[[]|x] st''];
    simpl in *; try done.
  run. by destruct (neqb (format args) "hive").
Qed.

Lemma valid_input_true sql_exec args st n1 n2 :
  t1 args = Some n1 → t2 args = Some n2 →
  is_Some (catalog st !! n1) → is_Some (catalog st !! n2) →
  in_list (i args) ["None"; "all"] = true →
  valid_input sql_exec args st
  = (Ok true,
     after_printing st
       (if neqb (format args) "hive"
        then [OutStr "|--Currently only support hive format--|"] else [])).
Proof.
  intros H1 H2 E1 E2 Hi. unfold valid_input.
  rewrite (bind_ok _ _ _ _ _ (valid_table_true args st n1 n2 H1 H2 E1 E2)).
  simpl. unfold valid_metadata_included_column. rewrite Hi. run.
  destruct (neqb (format args) "hive"); simpl; [done|].
  rewrite app_nil_r. by destruct st.
Qed.

(** X3. With a format outside parquet, orc, csv and hive, both tables in
    the catalog and the include option ['None'] or ['all'], [validation]
    ends with [AttributeError] at [result.show()], after the hive notice
    and the heading of the first direction; no call reaches the engine. *)
Theorem validation_unknown_format_raises sql_exec args st n1 n2 :
  t1 args = Some n1 → t2 args = Some n2 →
  is_Some (catalog st !! n1) → is_Some (catalog st !! n2) →
  in_list (i args) ["None"; "all"] = true →
  in_list (format args) known_formats = false →
  validation sql_exec args st
  = (Raise (AttributeError "'NoneType' object has no attribute 'show'"),
     after_printing st
       [OutStr "|--Currently only support hive format--|";
        OutStr ("|--PK(s) only in " +:+ n1 +:+ " :--|")]).
Proof.
  intros H1 H2 E1 E2 Hi Hfmt. unfold validation.
  rewrite (bind_ok _ _ _ _ _ (valid_input_true sql_exec args st n1 n2 H1 H2 E1 E2 Hi)).
  simpl.
  destruct (in_list_known _ Hfmt) as [Hfile Hhive].
  unfold valid_pk_only_in_one_table, neqb. rewrite Hfile, Hhive, H1. run.
  by rewrite <- app_assoc.
Qed.

(** X4. On the file-backed branch, for a view name that is an identifier,
    [load_table] leaves this name resolved to the whole file in the
    catalog, whatever the predicates and whether or not the select is
    accepted; the files are untouched. *)
Theorem load_table_binds_whole_file
    sql_exec format path t1p pk e i f view_name st r :
  in_list format file_formats = true →
  files st !! path = Some r →
  simple_identifier view_name = true →
  let st' := (load_table sql_exec format (Some path) t1p pk e i f view_name st).2 in
  catalog st' !! view_name = Some r ∧ files st' = files st.
Proof.
  intros Hfmt Hr Hview. simpl. unfold load_table. rewrite Hfmt. run.
  rewrite Hr. simpl. rewrite Hview. simpl.
  destruct (sql_exec _ _); simpl; by rewrite lookup_insert_eq.
Qed.

(** The answer of the file-backed branch, when there is one. *)
Lemma file_comparison_answer
    sql_exec format a b t1p t2p pk e i f o of_ st v :
  in_list format file_formats = true →
  value_of (valid_pk_only_in_one_table sql_exec format a b
              t1p t2p pk e i f o of_ st) = Ok v →
  ∃ ra rb r,
    a ≫= (λ path, files st !! path) = Some ra ∧
    b ≫= (λ path, files st !! path) = Some rb ∧
    v = PyDF r ∧
    sql_exec (<["table2" := rb]> (<["table1" := ra]> (catalog st)))
             ("select " +:+ fstr pk +:+ " from table1 except select " +:+
              fstr pk +:+ " from table2") = Ok r.
Proof.
  intros Hfmt.
  unfold valid_pk_only_in_one_table, load_table. rewrite Hfmt.
  destruct a as [pa|]; [|by run].
  destruct b as [pb|].
  2:{ run. destruct (files st !! pa); simpl; [|done].
      by destruct (sql_exec _ _). }
  run.
  destruct (files st !! pa) as [ra|]; simpl; [|done].
  destruct (sql_exec _ (load_table_sql t1p _ _ _ _)); simpl; [|done].
  destruct (files st !! pb) as [rb|]; simpl; [|done].
  destruct (sql_exec _ (load_table_sql t2p _ _ _ _)); simpl; [|done].
  destruct (sql_exec _ _) as [r|] eqn:Hr; simpl; [|done].
  intros [= <-]. by exists ra, rb, r.
Qed.

(** X5. On the file-backed branch the answer of
    [valid_pk_only_in_one_table] does not depend on the partition
    predicates, the row filter or the column options: two calls on the
    same session, datasets and key that both return, return the same
    relation. *)
Theorem file_comparison_ignores_predicates
    sql_exec format a b pk st
    t1p t2p e i f o of_ v t1p' t2p' e' i' f' o' of_' v' :
  in_list format file_formats = true →
  value_of (valid_pk_only_in_one_table sql_exec format a b
              t1p t2p pk e i f o of_ st) = Ok v →
  value_of (valid_pk_only_in_one_table sql_exec format a b
              t1p' t2p' pk e' i' f' o' of_' st) = Ok v' →
  v = v'.
Proof.
  intros Hfmt (ra & rb & r & Ha & Hb & -> & Hr)%file_comparison_answer;
    [|done].
  intros (ra' & rb' & r' & Ha' & Hb' & -> & Hr')%file_comparison_answer;
    [|done].
  congruence.
Qed.

(** X6. With the hive format, both tables in the catalog, the include
    option ['None'] or ['all'] and an engine that accepts the two
    statements, [validation] returns normally: it issues the statement of
    each direction once, the second with the tables swapped and the same
    predicates, prints each result and ends with the success line; the
    catalog and the files are unchanged. *)
Theorem validation_hive_two_directions sql_exec args st n1 n2 r1 r2 :
  format args = Some "hive" →
  t1 args = Some n1 → t2 args = Some n2 →
  is_Some (catalog st !! n1) → is_Some (catalog st !! n2) →
  in_list (i args) ["None"; "all"] = true →
  let q1 := hive_sql (t1 args) (t2 args) (t1p args) (t2p args) (pk args) (f args) in
  let q2 := hive_sql (t2 args) (t1 args) (t1p args) (t2p args) (pk args) (f args) in
  sql_exec (catalog st) q1 = Ok r1 →
  sql_exec (catalog st) q2 = Ok r2 →
  validation sql_exec args st
  = (Ok (),
     MkSpark (catalog st) (files st)
       (stdout st ++
        [OutStr "-----yuadebug---"; OutStr q1;
         OutStr ("|--PK(s) only in " +:+ n1 +:+ " :--|"); OutShow r1;
         OutStr "None";
         OutStr "-----yuadebug---"; OutStr q2;
         OutStr ("|--PK(s) only in " +:+ n2 +:+ " :--|"); OutShow r2;
         OutStr "None";
         OutStr "------------run validation success-----"])
       (trace st ++ [EvSql q1; EvSql q2])).
Proof.
  intros Hf H1 H2 E1 E2 Hi q1 q2 Hq1 Hq2. unfold validation.
  rewrite (bind_ok _ _ _ _ _ (valid_input_true sql_exec args st n1 n2 H1 H2 E1 E2 Hi)).
  simpl. unfold valid_pk_only_in_one_table. rewrite Hf. simpl.
  fold q1 q2. rewrite H1, H2. run. fold q1 q2.
  rewrite Hq1. simpl. rewrite Hq2. simpl.
  by rewrite <- !app_assoc.
Qed.

(** X7. When [spark.sql] itself raises on the first hive statement (the
    statement does not parse, or names an unknown table or column),
    [validation] ends with that exception: the statement was printed and
    issued once, nothing else is printed, and the second direction is
    not tried. *)
Theorem validation_hive_engine_error sql_exec args st n1 n2 x :
  format args = Some "hive" →
  t1 args = Some n1 → t2 args = Some n2 →
  is_Some (catalog st !! n1) → is_Some (catalog st !! n2) →
  in_list (i args) ["None"; "all"] = true →
  let q1 := hive_sql (t1 args) (t2 args) (t1p args) (t2p args) (pk args) (f args) in
  sql_exec (catalog st) q1 = Raise x →
  validation sql_exec args st
  = (Raise x,
     MkSpark (catalog st) (files st)
       (stdout st ++ [OutStr "-----yuadebug---"; OutStr q1])
       (trace st ++ [EvSql q1])).
Proof.
  intros Hf H1 H2 E1 E2 Hi q1 Hq1. unfold validation.
  rewrite (bind_ok _ _ _ _ _ (valid_input_true sql_exec args st n1 n2 H1 H2 E1 E2 Hi)).
  simpl. unfold valid_pk_only_in_one_table. rewrite Hf. simpl.
  fold q1. run. fold q1. rewrite Hq1. simpl.
  by rewrite <- !app_assoc.
Qed.

Lemma included_column_check_raises_witness :
  in_list (i include_date) ["None"; "all"] = false ∧
  ∃ x, value_of (valid_metadata_included_column MiniSQL.exec include_date
                   dated_session) = Raise x.
Proof.
  assert (Hi : in_list (i include_date) ["None"; "all"] = false)
    by reflexivity.
  split; [exact Hi|].
  exact (included_column_check_raises MiniSQL.exec include_date
           dated_session Hi).
Defined.

Lemma valid_input_false_names_missing_table_witness :
  value_of (valid_input MiniSQL.exec second_missing dated_session) = Ok false ∧
  ∃ n, (t1 second_missing = Some n ∨ t2 second_missing = Some n) ∧
       catalog dated_session !! n = None.
Proof.
  assert (H : value_of (valid_input MiniSQL.exec second_missing dated_session)
              = Ok false) by (by vm_compute).
  split; [exact H|].
  exact (valid_input_false_names_missing_table MiniSQL.exec second_missing
           dated_session H).
Defined.

Lemma validation_unknown_format_raises_witness :
  in_list (format json_format) known_formats = false ∧
  validation MiniSQL.exec json_format dated_session
  = (Raise (AttributeError "'NoneType' object has no attribute 'show'"),
     after_printing dated_session
       [OutStr "|--Currently only support hive format--|";
        OutStr ("|--PK(s) only in " +:+ "cpu_out" +:+ " :--|")]).
Proof.
  assert (E1 : is_Some (catalog dated_session !! "cpu_out"))
    by (vm_compute; eauto).
  assert (E2 : is_Some (catalog dated_session !! "gpu_out"))
    by (vm_compute; eauto).
  assert (Hfmt : in_list (format json_format) known_formats = false)
    by reflexivity.
  split; [exact Hfmt|].
  exact (validation_unknown_format_raises MiniSQL.exec json_format
           dated_session "cpu_out" "gpu_out" eq_refl eq_refl E1 E2
           eq_refl Hfmt).
Defined.

Lemma load_table_binds_whole_file_witness :
  let st' := (load_table MiniSQL.exec (Some "parquet") (Some "cpu_out")
                (Some "None") (Some "id") (Some "None") None
                (Some "amount > 100") "table1" amount_files).2 in
  files amount_files !! "cpu_out" = Some cpu_amounts ∧
  simple_identifier "table1" = true ∧
  catalog st' !! "table1" = Some cpu_amounts ∧
  files st' = files amount_files.
Proof.
  assert (Hr : files amount_files !! "cpu_out" = Some cpu_amounts)
    by reflexivity.
  split; [exact Hr|]. split; [exact table1_identifier|].
  exact (load_table_binds_whole_file MiniSQL.exec (Some "parquet") "cpu_out"
           (Some "None") (Some "id") (Some "None") None
           (Some "amount > 100") "table1" amount_files cpu_amounts
           eq_refl Hr table1_identifier).
Defined.

Lemma file_comparison_ignores_predicates_witness :
  let compare flt :=
    value_of (valid_pk_only_in_one_table MiniSQL.exec (Some "parquet")
                (Some "cpu_out") (Some "gpu_out") (Some "None") (Some "None")
                (Some "id") (Some "None") None flt None None amount_files) in
  compare (Some "amount > 100") = Ok (PyDF (keys [1%Z])) ∧
  compare (Some "None") = Ok (PyDF (keys [1%Z])) ∧
  PyDF (keys [1%Z]) = PyDF (keys [1%Z]).
Proof.
  simpl.
  assert (H1 : value_of (valid_pk_only_in_one_table MiniSQL.exec
                 (Some "parquet") (Some "cpu_out") (Some "gpu_out")
                 (Some "None") (Some "None") (Some "id") (Some "None") None
                 (Some "amount > 100") None None amount_files)
               = Ok (PyDF (keys [1%Z]))) by (by vm_compute).
  assert (H2 : value_of (valid_pk_only_in_one_table MiniSQL.exec
                 (Some "parquet") (Some "cpu_out") (Some "gpu_out")
                 (Some "None") (Some "None") (Some "id") (Some "None") None
                 (Some "None") None None amount_files)
               = Ok (PyDF (keys [1%Z]))) by (by vm_compute).
  split; [exact H1|]. split; [exact H2|].
  exact (file_comparison_ignores_predicates MiniSQL.exec (Some "parquet")
           (Some "cpu_out") (Some "gpu_out") (Some "id") amount_files
           _ _ _ _ _ _ _ _ _ _ _ _ _ _ _ _ eq_refl H1 H2).
Defined.

Lemma validation_hive_two_directions_witness :
  let q := "select id from t except select id from t where amount > 100" in
  MiniSQL.exec (catalog hive_session) q = Ok (keys [1%Z]) ∧
  validation MiniSQL.exec (hive_self "amount > 100") hive_session
  = (Ok (),
     MkSpark (catalog hive_session) (files hive_session)
       (stdout hive_session ++
        [OutStr "-----yuadebug---"; OutStr q;
         OutStr ("|--PK(s) only in " +:+ "t" +:+ " :--|"); OutShow (keys [1%Z]);
         OutStr "None";
         OutStr "-----yuadebug---"; OutStr q;
         OutStr ("|--PK(s) only in " +:+ "t" +:+ " :--|"); OutShow (keys [1%Z]);
         OutStr "None";
         OutStr "------------run validation success-----"])
       (trace hive_session ++ [EvSql q; EvSql q])).
Proof.
  simpl.
  assert (E : is_Some (catalog hive_session !! "t")) by (vm_compute; eauto).
  assert (Hq : MiniSQL.exec (catalog hive_session)
                 "select id from t except select id from t where amount > 100"
               = Ok (keys [1%Z])) by (by vm_compute).
  split; [exact Hq|].
  exact (validation_hive_two_directions MiniSQL.exec
           (hive_self "amount > 100") hive_session "t" "t"
           (keys [1%Z]) (keys [1%Z]) eq_refl eq_refl eq_refl E E eq_refl
           Hq Hq).
Defined.

Lemma validation_hive_engine_error_witness :
  let q := "select nokey from t except select nokey from t where amount > 100" in
  let x := AnalysisException "cannot resolve column" in
  MiniSQL.exec (catalog hive_session) q = Raise x ∧
  validation MiniSQL.exec hive_unknown_key hive_session
  = (Raise x,
     MkSpark (catalog hive_session) (files hive_session)
       (stdout hive_session ++ [OutStr "-----yuadebug---"; OutStr q])
       (trace hive_session ++ [EvSql q])).
Proof.
  simpl.
  assert (E : is_Some (catalog hive_session !! "t")) by (vm_compute; eauto).
  assert (Hq : MiniSQL.exec (catalog hive_session)
                 "select nokey from t except select nokey from t where amount > 100"
               = Raise (AnalysisException "cannot resolve column"))
    by (by vm_compute).
  split; [exact Hq|].
  exact (validation_hive_engine_error MiniSQL.exec hive_unknown_key
           hive_session "t" "t" _ eq_refl eq_refl eq_refl E E eq_refl Hq).
Defined.

End SessionProperties.

(** ** [partition_to_path] *)

Module PartitionProperties.
Import Py Partition Wellformed.

Lemma app_cons a s t : String a s +:+ t = String a (s +:+ t).
Proof. reflexivity. Qed.

Lemma app_nil_l_s t : "" +:+ t = t.
Proof. reflexivity. Qed.

Lemma app_nil_r_s s : s +:+ "" = s.
Proof. induction s as [|a s IH]; [done|]. by rewrite app_cons, IH. Qed.

Lemma app_assoc_s s t u : (s +:+ t) +:+ u = s +:+ t +:+ u.
Proof. induction s as [|a s IH]; [done|]. by rewrite !app_cons, IH. Qed.

Lemma prefix_cons a s b t :
  String.prefix (String a s) (String b t)
  = if ascii_dec a b then String.prefix s t else false.
Proof. reflexivity. Qed.

Lemma prefix_nil_r a s : String.prefix (String a s) "" = false.
Proof. reflexivity. Qed.

Lemma prefix_nil_l t : String.prefix "" t = true.
Proof. by destruct t. Qed.

Lemma prefix_and_app c u t :
  String.prefix "and" (String c u) = false →
  (∀ t', t ≠ String "n" t') → (∀ t', t ≠ String "d" t') →
  String.prefix "and" (String c (u +:+ t)) = false.
Proof.
  intros H Hn Hd. rewrite prefix_cons in *.
  destruct (ascii_dec "a" c); [|done].
  destruct u as [|c2 u]; rewrite ?app_cons, ?app_nil_l_s.
  { destruct t as [|b t]; [done|]. rewrite prefix_cons.
    destruct (ascii_dec "n" b) as [<-|]; [|done]. by destruct (Hn t). }
  rewrite prefix_cons in *. destruct (ascii_dec "n" c2); [|done].
  destruct u as [|c3 u]; rewrite ?app_cons, ?app_nil_l_s.
  { destruct t as [|b t]; [done|]. rewrite prefix_cons.
    destruct (ascii_dec "d" b) as [<-|]; [|done]. by destruct (Hd t). }
  rewrite prefix_cons in *. destruct (ascii_dec "d" c3); [|done].
  by rewrite prefix_nil_l in H.
Qed.

Lemma occurs_cons sep c s :
  occurs sep (String c s) = String.prefix sep (String c s) || occurs sep s.
Proof. reflexivity. Qed.

Lemma occurs_and_app u t :
  occurs "and" u = false → occurs "and" t = false →
  (∀ t', t ≠ String "n" t') → (∀ t', t ≠ String "d" t') →
  occurs "and" (u +:+ t) = false.
Proof.
  intros Hu Ht Hn Hd. induction u as [|c u IH]; [done|].
  rewrite occurs_cons in Hu. apply orb_false_elim in Hu as [Hp Hu].
  rewrite app_cons, occurs_cons. apply orb_false_intro; [|by apply IH].
  by apply prefix_and_app.
Qed.

Lemma split_on_keep c s :
  String.prefix "and" (String c s) = false →
  split_on "and" 0 (String c s) =
  match split_on "and" 0 s with
  | w :: ws => String c w :: ws
  | [] => [String c ""]
  end.
Proof. intros H. cbn [split_on]. by rewrite H. Qed.

Lemma split_and_cut u s :
  occurs "and" u = false →
  split_and (u +:+ "and" +:+ s) = u :: split_and s.
Proof.
  unfold split_and. intros Hu.
  induction u as [|c u IH]; [by destruct s|].
  rewrite occurs_cons in Hu. apply orb_false_elim in Hu as [Hp Hu].
  rewrite app_cons, split_on_keep, IH; [done..|].
  by apply prefix_and_app.
Qed.

Lemma split_and_whole u :
  occurs "and" u = false → split_and u = [u].
Proof.
  unfold split_and. intros Hu. induction u as [|c u IH]; [done|].
  rewrite occurs_cons in Hu. apply orb_false_elim in Hu as [Hp Hu].
  by rewrite split_on_keep, IH.
Qed.

Lemma occurs_and_space_r w :
  occurs "and" w = false → occurs "and" (w +:+ " ") = false.
Proof. intros Hw. by apply occurs_and_app. Qed.

Lemma occurs_and_space_l w :
  occurs "and" w = false → occurs "and" (" " +:+ w) = false.
Proof. intros Hw. by rewrite app_cons, occurs_cons, prefix_cons. Qed.

Lemma join_and x rest : join " and " (x :: rest) = x +:+ tail_str rest.
Proof.
  revert x. induction rest as [|y rest IH]; intros x.
  - by rewrite app_nil_r_s.
  - change (join " and " (x :: y :: rest))
      with (x +:+ " and " +:+ join " and " (y :: rest)).
    by rewrite IH.
Qed.

Lemma split_and_items w items :
  occurs "and" w = false →
  Forall (λ y, occurs "and" y = false) items →
  split_and (w +:+ tail_str items) = shape w items.
Proof.
  intros Hw Hitems. revert w Hw.
  induction Hitems as [|y rest Hy _ IH]; intros w Hw; simpl.
  - rewrite app_nil_r_s. by apply split_and_whole.
  - change (" and " +:+ y +:+ tail_str rest)
      with (" " +:+ "and" +:+ (" " +:+ y +:+ tail_str rest)).
    rewrite <- (app_assoc_s w " "), split_and_cut
      by by apply occurs_and_space_r.
    f_equal. rewrite <- (app_assoc_s " " y).
    apply IH. by apply occurs_and_space_l.
Qed.

Lemma split_eq_none u :
  occurs "=" u = false → split "=" u = [u].
Proof.
  induction u as [|c u IH]; [done|].
  rewrite occurs_cons, prefix_cons. intros [Hp Hu]%orb_false_elim.
  cbn [split]. destruct (decide (c = "="%char)) as [->|].
  - destruct (ascii_dec "=" "="); [|done]. by rewrite prefix_nil_l in Hp.
  - by rewrite IH.
Qed.

Lemma split_eq_pair u t :
  occurs "=" u = false → occurs "=" t = false →
  split "=" (u +:+ "=" +:+ t) = [u; t].
Proof.
  intros Hu Ht. induction u as [|c u IH].
  - rewrite app_nil_l_s, app_cons. cbn [split].
    rewrite decide_True by done. by rewrite app_nil_l_s, split_eq_none.
  - revert Hu. rewrite occurs_cons, prefix_cons.
    intros [Hp Hu]%orb_false_elim.
    rewrite app_cons. cbn [split]. destruct (decide (c = "="%char)) as [->|].
    + destruct (ascii_dec "=" "="); [|done]. by rewrite prefix_nil_l in Hp.
    + by rewrite IH.
Qed.

Lemma occurs_char_app a u t :
  occurs (String a "") (u +:+ t)
  = occurs (String a "") u || occurs (String a "") t.
Proof.
  induction u as [|c u IH]; [by destruct t|].
  rewrite app_cons, !occurs_cons, !prefix_cons, IH.
  destruct (ascii_dec a c); [|done]. by rewrite !prefix_nil_l.
Qed.

Lemma shape_pairs k v rest :
  no_eq (k, v) → Forall no_eq rest →
  split "=" <$> shape (render (k, v)) (render <$> rest)
  = pair_list <$> padded k v rest.
Proof.
  intros Hkv Hrest. revert k v Hkv.
  induction Hrest as [|[k' v'] rest [Hk' Hv'] _ IH]; intros k v [Hk Hv];
    simpl in *.
  - unfold render. simpl. by rewrite split_eq_pair.
  - unfold render at 1. simpl. f_equal.
    + rewrite !app_assoc_s. apply split_eq_pair; [done|].
      by rewrite occurs_char_app, Hv.
    + change (" " +:+ render (k', v')) with (render (" " +:+ k', v')).
      apply IH. split; [|done]. exact Hk'.
Qed.

Lemma dict_set_fresh k v d :
  k ∉ d.*1 → dict_set k v d = d ++ [(k, v)].
Proof.
  induction d as [|[k' v'] d IH]; intros Hk; [done|]. simpl in *.
  apply not_elem_of_cons in Hk as [Hne Hk].
  rewrite decide_False by done. by rewrite IH.
Qed.

Lemma dict_from_fresh n pairs d :
  NoDup (d.*1 ++ pairs.*1) →
  dict_from n (pair_list <$> pairs) d = inl (d ++ pairs).
Proof.
  revert n d. induction pairs as [|[k v] pairs IH]; intros n d Hnd; simpl.
  - by rewrite app_nil_r.
  - rewrite dict_set_fresh.
    + rewrite IH; [by rewrite <- app_assoc|].
      rewrite fmap_app. simpl. by rewrite <- app_assoc.
    + apply NoDup_app in Hnd as (_ & Hdisj & _). intros Hk.
      apply (Hdisj k Hk). simpl. by left.
Qed.

Lemma padded_keys k v rest :
  (padded k v rest).*1 = k :: ((λ cv, " " +:+ cv.1) <$> rest).
Proof.
  revert k v. induction rest as [|[k' v'] rest IH]; intros k v; [done|].
  simpl. by rewrite IH.
Qed.

Lemma padded_NoDup k v rest :
  occurs " " k = false → NoDup rest.*1 → NoDup (padded k v rest).*1.
Proof.
  intros Hk Hnd. rewrite padded_keys. apply NoDup_cons. split.
  - intros ([k' v'] & -> & _)%list_elem_of_fmap.
    rewrite app_cons, occurs_cons, prefix_cons, prefix_nil_l in Hk.
    by destruct (ascii_dec " " " ").
  - assert ((λ cv : string * string, " " +:+ cv.1) <$> rest
            = (λ s, " " +:+ s) <$> rest.*1) as ->.
    { by rewrite <- list_fmap_compose. }
    apply NoDup_fmap_2; [|done]. apply String.app_inj.
Qed.

Lemma remove_spaces_cons a s :
  remove_spaces (String a s)
  = if decide (a = " "%char) then remove_spaces s
    else String a (remove_spaces s).
Proof. reflexivity. Qed.

Lemma remove_spaces_app s t :
  remove_spaces (s +:+ t) = remove_spaces s +:+ remove_spaces t.
Proof.
  induction s as [|a s IH]; [done|].
  rewrite app_cons, !remove_spaces_cons, IH. by destruct (decide _).
Qed.

Lemma remove_spaces_plain s :
  occurs " " s = false → remove_spaces s = s.
Proof.
  induction s as [|a s IH]; [done|].
  rewrite occurs_cons, prefix_cons, prefix_nil_l, remove_spaces_cons.
  intros [Hp Hs]%orb_false_elim.
  destruct (decide (a = " "%char)) as [->|].
  - by destruct (ascii_dec " " " ").
  - by rewrite IH.
Qed.

(** The result never contains a space. *)
Lemma remove_spaces_no_space s s1 s2 :
  remove_spaces s ≠ s1 +:+ String " " s2.
Proof.
  revert s1. induction s as [|a s IH]; intros s1.
  - by destruct s1.
  - rewrite remove_spaces_cons. destruct (decide (a = " "%char)); [done|].
    destruct s1 as [|b s1]; rewrite ?app_cons, ?app_nil_l_s.
    + congruence.
    + intros [= _ H]. by apply (IH s1).
Qed.

Lemma join_cons_ne sep x l :
  l ≠ [] → join sep (x :: l) = x +:+ sep +:+ join sep l.
Proof. by destruct l. Qed.

Lemma padded_ne k v rest : render <$> padded k v rest ≠ [].
Proof. by destruct rest as [|[??]?]. Qed.

Lemma remove_spaces_padded k v rest :
  remove_spaces (join "/" (render <$> padded k v rest))
  = join "/" (squeezed <$> (k, v) :: rest).
Proof.
  revert k v. induction rest as [|[k' v'] rest IH]; intros k v.
  - simpl. unfold render, squeezed. simpl.
    by rewrite !remove_spaces_app.
  - cbn [padded fmap list_fmap].
    rewrite join_cons_ne by apply padded_ne.
    rewrite !remove_spaces_app, IH.
    rewrite (join_cons_ne _ (squeezed (k, v))) by done.
    unfold render at 1, squeezed at 2. simpl.
    rewrite !remove_spaces_app. simpl. rewrite app_nil_r_s.
    by rewrite !app_assoc_s.
Qed.

Lemma squeezed_plain kvs :
  Forall (λ cv, plain cv.1 ∧ plain cv.2) kvs →
  squeezed <$> kvs = render <$> kvs.
Proof.
  induction 1 as [|[k v] kvs [(Hk & _) (Hv & _)] _ IH]; [done|].
  cbn [fmap list_fmap]. rewrite <- IH. f_equal.
  unfold squeezed, render. simpl. by rewrite !remove_spaces_plain.
Qed.

Lemma render_no_and k v :
  plain k → plain v → occurs "and" (render (k, v)) = false.
Proof.
  intros (_ & _ & Hk) (_ & _ & Hv). unfold render. simpl.
  by apply occurs_and_app.
Qed.

Lemma truthy_render k v t : truthy (Some (render (k, v) +:+ t)) = true.
Proof. by destruct k. Qed.

(** X8. For columns and values that contain no space, no [=] and no
    [and], with distinct column names, [partition_to_path] turns the
    predicate [k1=v1 and k2=v2 and ...] into the directory
    [path/k1=v1/k2=v2/...], the spaces of [path] removed; with no pair at
    all the result is [path/]. *)
Theorem partition_to_path_round_trip kvs path :
  Forall (λ cv, plain cv.1 ∧ plain cv.2) kvs →
  NoDup kvs.*1 →
  partition_to_path (Some (join " and " (render <$> kvs))) path
  = Path (remove_spaces (fstr path) +:+ "/" +:+ join "/" (render <$> kvs)).
Proof.
  intros Hplain Hnd. destruct kvs as [|[k v] rest].
  { unfold partition_to_path. simpl. by rewrite !remove_spaces_app. }
  apply Forall_cons in Hplain as [[Hk Hv] Hrest].
  apply NoDup_cons in Hnd as [_ Hnd].
  unfold partition_to_path.
  cbn [fmap list_fmap]. rewrite join_and, truthy_render.
  cbn [fstr from_option id].
  rewrite split_and_items.
  2:{ by apply render_no_and. }
  2:{ apply Forall_fmap. eapply Forall_impl; [exact Hrest|].
      intros [k' v'] [??]. by apply render_no_and. }
  rewrite shape_pairs.
  2:{ split; [apply Hk | apply Hv]. }
  2:{ eapply Forall_impl; [exact Hrest|].
      intros [k' v'] [(_ & ? & _) (_ & ? & _)]. by split. }
  rewrite (dict_from_fresh 0 _ []).
  2:{ simpl. apply padded_NoDup; [apply Hk | done]. }
  simpl. f_equal.
  rewrite !remove_spaces_app, remove_spaces_padded.
  rewrite (squeezed_plain ((k, v) :: rest)).
  2:{ by apply Forall_cons. }
  done.
Qed.

(** X9. A path returned by [partition_to_path] contains no space,
    neither in the partition part nor in the base path. *)
Theorem partition_to_path_no_space partition_str path s s1 s2 :
  partition_to_path partition_str path = Path s →
  s ≠ s1 +:+ String " " s2.
Proof.
  unfold partition_to_path.
  destruct (if truthy partition_str then _ else _) as [d|[n m]]; [|done].
  intros [= <-]. apply remove_spaces_no_space.
Qed.

(** X10. Without a partition string ([None] or the empty string) the
    result is the base path without its spaces, followed by a slash. *)
Theorem partition_to_path_without_partition partition_str path :
  truthy partition_str = false →
  partition_to_path partition_str path
  = Path (remove_spaces (fstr path) +:+ "/").
Proof.
  intros H. unfold partition_to_path. rewrite H. simpl.
  by rewrite !remove_spaces_app.
Qed.

(** X11. A partition string is cut at every [and], inside a name too:
    when the text before the first [and] has no [=] (as in [brand=x]),
    [dict] stops at element 0, of length 1, with [ValueError]. *)
Theorem partition_to_path_and_in_name u w path :
  occurs "and" u = false → occurs "=" u = false →
  partition_to_path (Some (u +:+ "and" +:+ w)) path = ValueError 0 1.
Proof.
  intros Hand Heq. unfold partition_to_path.
  assert (truthy (Some (u +:+ "and" +:+ w)) = true) as -> by by destruct u.
  cbn [fstr from_option id]. rewrite split_and_cut by done.
  cbn [fmap list_fmap]. by rewrite split_eq_none.
Qed.

(** X12. A single predicate without [=] (a range such as [dt > 1]) is
    refused in the same way. *)
Theorem partition_to_path_needs_equals u path :
  u ≠ "" → occurs "and" u = false → occurs "=" u = false →
  partition_to_path (Some u) path = ValueError 0 1.
Proof.
  intros Hne Hand Heq. unfold partition_to_path.
  assert (truthy (Some u) = true) as -> by by destruct u.
  cbn [fstr from_option id]. rewrite split_and_whole by done.
  cbn [fmap list_fmap]. by rewrite split_eq_none.
Qed.

Lemma partition_to_path_round_trip_witness :
  let kvs := [("year", "2023"); ("month", "1")] in
  Forall (λ cv : string * string, plain cv.1 ∧ plain cv.2) kvs ∧
  NoDup kvs.*1 ∧
  partition_to_path (Some (join " and " (render <$> kvs))) (Some "/data/my t")
  = Path (remove_spaces (fstr (Some "/data/my t")) +:+ "/" +:+
          join "/" (render <$> kvs)).
Proof.
  simpl.
  assert (Hplain : Forall (λ cv : string * string, plain cv.1 ∧ plain cv.2)
                     [("year", "2023"); ("month", "1")])
    by (repeat constructor).
  assert (Hnd : NoDup [("year", "2023"); ("month", "1")].*1)
    by (apply (bool_decide_unpack _); by vm_compute).
  split; [exact Hplain|]. split; [exact Hnd|].
  exact (partition_to_path_round_trip [("year", "2023"); ("month", "1")]
           (Some "/data/my t") Hplain Hnd).
Defined.

Lemma partition_to_path_no_space_witness :
  partition_to_path (Some "year=2023 and month=1") (Some "/data/my t")
  = Path "/data/myt/year=2023/month=1" ∧
  "/data/myt/year=2023/month=1" ≠ "/data/my" +:+ String " " "t/year=2023/month=1".
Proof.
  assert (H : partition_to_path (Some "year=2023 and month=1")
                (Some "/data/my t") = Path "/data/myt/year=2023/month=1")
    by reflexivity.
  split; [exact H|].
  exact (partition_to_path_no_space _ _ _ "/data/my" "t/year=2023/month=1" H).
Defined.

Lemma partition_to_path_without_partition_witness :
  truthy (Some "") = false ∧
  partition_to_path (Some "") (Some "/data/my t")
  = Path (remove_spaces (fstr (Some "/data/my t")) +:+ "/").
Proof.
  split; [reflexivity|].
  exact (partition_to_path_without_partition (Some "") (Some "/data/my t")
           eq_refl).
Defined.

Lemma partition_to_path_and_in_name_witness :
  occurs "and" "br" = false ∧ occurs "=" "br" = false ∧
  partition_to_path (Some ("br" +:+ "and" +:+ "=x")) (Some "/data")
  = ValueError 0 1.
Proof.
  split; [reflexivity|]. split; [reflexivity|].
  exact (partition_to_path_and_in_name "br" "=x" (Some "/data")
           eq_refl eq_refl).
Defined.

Lemma partition_to_path_needs_equals_witness :
  "dt > 1" ≠ "" ∧ occurs "and" "dt > 1" = false ∧ occurs "=" "dt > 1" = false ∧
  partition_to_path (Some "dt > 1") (Some "/data") = ValueError 0 1.
Proof.
  assert (Hne : "dt > 1" ≠ "") by discriminate.
  split; [exact Hne|]. split; [reflexivity|]. split; [reflexivity|].
  exact (partition_to_path_needs_equals "dt > 1" (Some "/data") Hne
           eq_refl eq_refl).
Defined.

End PartitionProperties.

(** ** [get_cols_diff_with_same_pk] *)

Module ColumnsProperties.
Import Py Data Engine Validation Spec Inputs Partition Columns Properties.

(** X13. On the file-backed branch [get_cols_diff_with_same_pk] needs
    every one of the key, the two column lists, the partition predicate
    and the filter to be a [str]: with [None] for any of them (an omitted
    flag, where the sentinel is the text ['None']) it raises
    [AttributeError] before anything reaches the engine. *)
Theorem get_cols_diff_needs_strings
    sql_exec format table1_name table2_name pk partitions filter
    included_columns excluded_columns st :
  in_list format file_formats = true →
  pk = None ∨ included_columns = None ∨ excluded_columns = None ∨
  partitions = None ∨ filter = None →
  get_cols_diff_with_same_pk sql_exec format table1_name table2_name pk
    partitions filter included_columns excluded_columns st
  = (Raise (AttributeError "'NoneType' object has no attribute 'split'"), st).
Proof.
  intros Hfmt Hnone. unfold get_cols_diff_with_same_pk. rewrite Hfmt.
  unfold split_comma, add_conjuncts, split_and_arg.
  destruct pk as [pk|]; [|by run].
  destruct included_columns as [inc|]; [|by run].
  destruct excluded_columns as [exc|]; [|by run].
  destruct partitions as [part|]; [|by run].
  destruct filter as [flt|].
  { by destruct Hnone as [?|[?|[?|[?|?]]]]. }
  run. by destruct (neqb (Some part) "None").
Qed.

(** X14. [get_cols_diff_with_same_pk] never loads a file nor registers a
    view: the catalog and the files are as before, and the engine
    receives at most one statement. The views [table1] and [table2] it
    joins must already be there. *)
Theorem get_cols_diff_registers_nothing
    sql_exec format table1_name table2_name pk partitions filter
    included_columns excluded_columns st :
  let out := get_cols_diff_with_same_pk sql_exec format table1_name
               table2_name pk partitions filter included_columns
               excluded_columns st in
  catalog out.2 = catalog st ∧ files out.2 = files st ∧
  (issued out = trace st ∨ ∃ text, issued out = trace st ++ [EvSql text]).
Proof.
  simpl. unfold get_cols_diff_with_same_pk.
  destruct (in_list format file_formats).
  2:{ destruct (eqb format "hive"); run; auto. }
  unfold split_comma, add_conjuncts, split_and_arg.
  destruct pk as [pk|]; [|run; auto].
  destruct included_columns as [inc|]; [|run; auto].
  destruct excluded_columns as [exc|]; [|run; auto].
  destruct (neqb partitions "None"), (neqb filter "None"),
    partitions as [part|], filter as [flt|]; run; auto;
    destruct (sql_exec _ _); simpl; eauto.
Qed.

Lemma compared_covered included excluded :
  Forall (λ c, c ∈ excluded) included → compared included excluded = [].
Proof.
  unfold compared. induction 1 as [|c l Hc _ IH]; [done|].
  rewrite filter_cons. by rewrite decide_False by naive_solver.
Qed.

(** X15. When every included column is excluded, the statement selects
    the key columns only and its difference predicate is empty: it reads
    [WHERE ( )]. *)
Theorem get_cols_diff_nothing_to_compare
    sql_exec format table1_name table2_name pk inc exc st :
  in_list format file_formats = true →
  Forall (λ c, c ∈ strip <$> split "," exc) (strip <$> split "," inc) →
  issued (get_cols_diff_with_same_pk sql_exec format table1_name table2_name
            (Some pk) (Some "None") (Some "None") (Some inc) (Some exc) st)
  = trace st ++
    [EvSql (newline +:+ margin +:+ "SELECT " +:+
            join ", " ((λ p, "t1." +:+ p) <$> split "," pk) +:+
            newline +:+ margin +:+ "FROM table1 t1" +:+
            newline +:+ margin +:+ "FULL OUTER JOIN table2 t2 ON " +:+
            join " AND " ((λ c, "t1." +:+ c +:+ " = t2." +:+ c)
                            <$> (strip <$> split "," pk)) +:+
            newline +:+ margin +:+ "WHERE ( )" +:+
            newline +:+ last_margin)].
Proof.
  intros Hfmt Hcov. unfold get_cols_diff_with_same_pk. rewrite Hfmt.
  unfold split_comma, add_conjuncts. run.
  rewrite (compared_covered _ _ Hcov). unfold diff_sql. simpl.
  rewrite app_nil_r.
  by destruct (sql_exec _ _).
Qed.

Lemma get_cols_diff_needs_strings_witness :
  in_list (Some "parquet") file_formats = true ∧
  get_cols_diff_with_same_pk MiniSQL.exec (Some "parquet") (Some "cpu_out")
    (Some "gpu_out") (Some "id") None (Some "None") (Some "amount")
    (Some "None") amount_files
  = (Raise (AttributeError "'NoneType' object has no attribute 'split'"),
     amount_files).
Proof.
  split; [reflexivity|].
  exact (get_cols_diff_needs_strings MiniSQL.exec (Some "parquet")
           (Some "cpu_out") (Some "gpu_out") (Some "id") None (Some "None")
           (Some "amount") (Some "None") amount_files eq_refl
           (or_intror (or_intror (or_intror (or_introl eq_refl))))).
Defined.

Lemma get_cols_diff_nothing_to_compare_witness :
  Forall (λ c, c ∈ strip <$> split "," "amount, id")
         (strip <$> split "," "amount") ∧
  queries (issued (get_cols_diff_with_same_pk MiniSQL.exec (Some "parquet")
                     (Some "cpu_out") (Some "gpu_out") (Some "id")
                     (Some "None") (Some "None") (Some "amount")
                     (Some "amount, id") amount_files))
  = [newline +:+ margin +:+ "SELECT t1.id" +:+
     newline +:+ margin +:+ "FROM table1 t1" +:+
     newline +:+ margin +:+ "FULL OUTER JOIN table2 t2 ON t1.id = t2.id" +:+
     newline +:+ margin +:+ "WHERE ( )" +:+
     newline +:+ last_margin].
Proof.
  assert (Hcov : Forall (λ c, c ∈ strip <$> split "," "amount, id")
                        (strip <$> split "," "amount")).
  { apply (bool_decide_unpack _). by vm_compute. }
  split; [exact Hcov|].
  exact (f_equal queries
           (get_cols_diff_nothing_to_compare MiniSQL.exec (Some "parquet")
              (Some "cpu_out") (Some "gpu_out") "id" "amount" "amount, id"
              amount_files eq_refl Hcov)).
Defined.

End ColumnsProperties.
